(** * pymaid.core: neuron, neuron list and volume objects

    A shallow embedding of [pymaid/core.py] and the properties its
    specification states about it.  Python objects are records whose
    lazily-populated attributes are [option] fields ([None] = the key is
    not in the object's [__dict__]); code that logs, calls the remote
    server or raises runs in a small state-and-error monad. *)

From Stdlib Require Import ZArith QArith Qminmax List String Ascii Lia Bool.
From Stdlib Require Import DecimalString HexadecimalString DecimalZ DecimalPos.
From stdpp Require Import base option list gmap strings.

Local Open Scope string_scope.
Local Open Scope list_scope.
Local Open Scope Z_scope.

(** ** Python preliminaries *)

Module Py.

(** Exceptions raised by the module (the message is the source's). *)
Inductive exn :=
| Exception (msg : string)
| AttributeError (msg : string)
| TypeError (msg : string)
| ValueError (msg : string)
| AssertionError (msg : string)
| IndexError
| KeyError (key : string).

Inductive result (A : Type) :=
| Ok (a : A)
| Raise (e : exn).
Arguments Ok {A} a.
Arguments Raise {A} e.

(** A table cell or scalar holding a number.  Every finite float is a
    rational, so finite values are kept as [Q] (rounding of float
    arithmetic is not represented); [NaN] also stands for a missing
    value ([None]/null), which is how pandas treats both. *)
Inductive num :=
| NaN
| Num (q : Q).

Definition isnull (a : num) : bool :=
  match a with NaN => true | Num _ => false end.

(** [a > t], [a == b] and [a * k]: comparisons with NaN are false. *)
Definition gt (a : num) (t : Q) : bool :=
  match a with NaN => false | Num q => negb (Qle_bool q t) end.
Definition eqb (a b : num) : bool :=
  match a, b with Num p, Num q => Qeq_bool p q | _, _ => false end.
Definition mul (a : num) (k : Q) : num :=
  match a with NaN => NaN | Num q => Num (q * k) end.

(** [a in l] for a list of numbers. *)
Definition contains (l : list num) (a : num) : bool := existsb (eqb a) l.

(** Truthiness of an optional string ([None] and [''] are false). *)
Definition truthy (s : option string) : bool :=
  match s with None => false | Some s => negb (String.eqb s "") end.

(** [l[i]] on a Python list: negative indices count from the end. *)
Definition getitem {A} (l : list A) (i : Z) : option A :=
  let n := Z.of_nat (length l) in
  if (0 <=? i) && (i <? n) then l !! Z.to_nat i
  else if (- n <=? i) && (i <? 0) then l !! Z.to_nat (n + i)
  else None.

(** *** Built-in conversions

    [str] of an integer is its decimal numeral.  [int], [float] and
    [int16] (that is [int(s, 16)]) read the plain numerals the module
    meets: an optional sign and digits, for [float] an optional
    fraction or [nan].  Surrounding blanks, underscores, exponents and
    infinities, which Python also reads, are a [ValueError] here. *)

Definition str (z : Z) : string :=
  DecimalString.NilZero.string_of_int (Z.to_int z).

Definition int (s : string) : result Z :=
  match DecimalString.NilZero.int_of_string s with
  | Some d => Ok (Z.of_int d)
  | None => Raise (ValueError ("invalid literal for int() with base 10: " ++ s))
  end.

Definition digits (s : string) : option Z :=
  option_map Z.of_uint (DecimalString.NilEmpty.uint_of_string s).

(** [s.partition('.')] without the separator. *)
Fixpoint partition_dot (s : string) : string * option string :=
  match s with
  | EmptyString => (EmptyString, None)
  | String c rest =>
      if Ascii.eqb c "." then (EmptyString, Some rest)
      else let '(a, b) := partition_dot rest in (String c a, b)
  end.

Definition unsigned_float (s : string) : option Q :=
  let '(ip, fp) := partition_dot s in
  let fp := match fp with Some f => f | None => EmptyString end in
  if String.eqb ip "" && String.eqb fp "" then None
  else
    match digits ip, digits fp with
    | Some i, Some f =>
        let k := Z.pow 10 (Z.of_nat (String.length fp)) in
        Some (Qmake (i * k + f) (Z.to_pos k))
    | _, _ => None
    end.

Definition float (s : string) : result num :=
  let bad := Raise (ValueError ("could not convert string to float: " ++ s)) in
  if String.eqb s "nan" || String.eqb s "NaN" then Ok NaN
  else
    match s with
    | String c rest =>
        if Ascii.eqb c "-" then
          match unsigned_float rest with
          | Some q => Ok (Num (- q))
          | None => bad
          end
        else if Ascii.eqb c "+" then
          match unsigned_float rest with
          | Some q => Ok (Num q)
          | None => bad
          end
        else
          match unsigned_float s with
          | Some q => Ok (Num q)
          | None => bad
          end
    | EmptyString => bad
    end.

Definition hex_value (c : ascii) : option Z :=
  let n := Z.of_nat (nat_of_ascii c) in
  if (48 <=? n) && (n <=? 57) then Some (n - 48)
  else if (97 <=? n) && (n <=? 102) then Some (n - 87)
  else if (65 <=? n) && (n <=? 70) then Some (n - 55)
  else None.

Fixpoint hex_digits (s : string) (acc : Z) : option Z :=
  match s with
  | EmptyString => Some acc
  | String c rest =>
      match hex_value c with
      | Some d => hex_digits rest (acc * 16 + d)
      | None => None
      end
  end.

Definition int16 (s : string) : result Z :=
  let bad := Raise (ValueError ("invalid literal for int() with base 16: " ++ s)) in
  let unsigned (u : string) :=
    match u with
    | EmptyString => None
    | _ => hex_digits u 0
    end in
  match s with
  | String c rest =>
      if Ascii.eqb c "-" then
        match unsigned rest with Some z => Ok (- z) | None => bad end
      else if Ascii.eqb c "+" then
        match unsigned rest with Some z => Ok z | None => bad end
      else
        match unsigned s with Some z => Ok z | None => bad end
  | EmptyString => bad
  end.

(** ["{:02x}".format(c)]: lower-case hexadecimal, zero-padded to two
    characters (a minus sign counts as one). *)
Definition format_02x (c : Z) : string :=
  let s := HexadecimalString.NilZero.string_of_int (Z.to_hex_int c) in
  if (String.length s <? 2)%nat then String "0" s else s.

(** [s.lstrip(c)], [s[i:j]] for [0 <= i <= j] and [s.startswith(c)]. *)
Fixpoint lstrip (c : ascii) (s : string) : string :=
  match s with
  | String a rest => if Ascii.eqb a c then lstrip c rest else s
  | EmptyString => EmptyString
  end.

Definition slice (s : string) (i j : nat) : string :=
  String.substring i (Init.Nat.min (String.length s) j - i) s.

Definition startswith (c : ascii) (s : string) : bool :=
  match s with
  | String a _ => Ascii.eqb a c
  | EmptyString => false
  end.

End Py.

(** ** Volume: a mesh held as a dictionary *)

Module Volume.

Definition point : Type := Q * Q * Q.
Definition face : Type := Z * Z * Z.

(** The dictionary entries a [Volume] is built with. *)
Record t := mk {
  vertices : list point;
  faces : list face;
  name : string;
  color : Q * Q * Q * Q
}.

(** What [combine] may be handed for [x]. *)
Inductive arg :=
| AVolume (v : t)
| ADict (d : list (string * t))
| AList (l : list t).

Definition reindex (offs : Z) (f : face) : face :=
  let '(a, b, c) := f in (a + offs, b + offs, c + offs).

(** The [for vol in x] loop of [combine], on its two accumulators. *)
Fixpoint combine_loop (x : list t) (vs : list point) (fs : list face)
  : list point * list face :=
  match x with
  | [] => (vs, fs)
  | vol :: rest =>
      let offs := Z.of_nat (length vs) in
      combine_loop rest (vs ++ vertices vol)
                   (fs ++ map (reindex offs) (faces vol))
  end.

Definition combine (x : arg) (name : string) (color : Q * Q * Q * Q) : t :=
  match x with
  | AVolume v => v
  | ADict d =>
      let '(vs, fs) := combine_loop (map snd d) [] [] in mk vs fs name color
  | AList l =>
      let '(vs, fs) := combine_loop l [] [] in mk vs fs name color
  end.

Definition default_name : string := "comb_vol".
Definition default_color : Q * Q * Q * Q := (120, 120, 120, 6 # 10)%Q.

(** The mesh invariant: every face index is a position of the vertex
    sequence. *)
Definition index_ok (n : nat) (i : Z) : Prop := 0 <= i < Z.of_nat n.
Definition face_ok (n : nat) (f : face) : Prop :=
  let '(a, b, c) := f in index_ok n a /\ index_ok n b /\ index_ok n c.
Definition mesh_ok (v : t) : Prop :=
  Forall (face_ok (length (vertices v))) (faces v).

(** The positions a face resolves to in a vertex sequence. *)
Definition resolve (vs : list point) (f : face)
  : option point * option point * option point :=
  let '(a, b, c) := f in (Py.getitem vs a, Py.getitem vs b, Py.getitem vs c).

(** The faces [combine_loop] adds when it starts with [offs] vertices. *)
Fixpoint reindexed (offs : nat) (x : list t) : list face :=
  match x with
  | [] => []
  | vol :: rest =>
      map (reindex (Z.of_nat offs)) (faces vol)
      ++ reindexed (offs + length (vertices vol)) rest
  end.

(** Vertices and faces in front of input number [j]. *)
Definition vertices_before (j : nat) (x : list t) : nat :=
  length (concat (map vertices (take j x))).
Definition faces_before (j : nat) (x : list t) : nat :=
  length (concat (map faces (take j x))).

(** *** resize *)

Definition px (p : point) : Q := fst (fst p).
Definition py (p : point) : Q := snd (fst p).
Definition pz (p : point) : Q := snd p.

Definition Qsum (l : list Q) : Q := fold_right Qplus 0%Q l.

(** [np.mean(a, axis=0)] of an n x 3 array. *)
Definition mean_axis0 (vs : list point) : point :=
  let n := inject_Z (Z.of_nat (length vs)) in
  (Qsum (map px vs) / n, Qsum (map py vs) / n, Qsum (map pz vs) / n)%Q.

Definition psub (p c : point) : point :=
  (px p - px c, py p - py c, pz p - pz c)%Q.
Definition padd (p c : point) : point :=
  (px p + px c, py p + py c, pz p + pz c)%Q.
Definition pscale (p : point) (x : Q) : point :=
  (px p * x, py p * x, pz p * x)%Q.

(** Points are compared coordinate-wise as rational numbers. *)
Definition peq (p q : point) : Prop :=
  (px p == px q /\ py p == py q /\ pz p == pz q)%Q.

(** What [resize] makes of one coordinate [a] when the centre has
    coordinate [c]. *)
Definition rescale (c x a : Q) : Q := ((a - c) * x + c)%Q.

Definition resize (v : t) (x : Q) : t :=
  let cn := mean_axis0 (vertices v) in
  let vec := map (fun p => psub p cn) (vertices v) in
  let vec := map (fun p => pscale p x) vec in
  mk (map (fun p => padd p cn) vec) (faces v) (name v) (color v).

End Volume.

(** ** Tables, sessions and the world outside the object model *)

Module Data.
Import Py.

(** A [CatmaidInstance]; only its identity matters here. *)
Inductive Session := CatmaidInstance (server_url : string).

Definition session_eqb (a b : Session) : bool :=
  match a, b with
  | CatmaidInstance u, CatmaidInstance v => String.eqb u v
  end.

Inductive node_type := root | branch | slab | end_.

Definition node_type_eqb (a b : node_type) : bool :=
  match a, b with
  | root, root | branch, branch | slab, slab | end_, end_ => true
  | _, _ => false
  end.

(** One row of the treenode table.  [other] holds the columns the core
    never reads ([label] of an SWC file; [creator_id], [confidence] of a
    server table). *)
Record NodeRow := mkNode {
  treenode_id : num;
  parent_id : num;
  x : num;
  y : num;
  z : num;
  radius : num;
  other : list (string * num)
}.

(** The treenode DataFrame: its rows and the two temporary columns,
    [None] when the column is not in the frame. *)
Record NodeTable := mkNodes {
  rows : list NodeRow;
  type : option (list node_type);
  flow_centrality : option (list num)
}.

Definition empty (t : NodeTable) : bool :=
  match rows t with [] => true | _ => false end.

Record ConnectorRow := mkConnector {
  cn_treenode_id : num;
  connector_id : num;
  relation : num;
  cn_x : num;
  cn_y : num;
  cn_z : num
}.

Definition Tags : Type := gmap string (list num).
Definition Graph : Type := list (num * num * num).
Definition Matrix : Type := list (list num).
Definition Slabs : Type := list (list num).

(** One row of the frame [pymaid.get_neuron(..., return_df=True)]
    returns. *)
Record Skeleton := mkSkeleton {
  sk_neuron_name : string;
  sk_skeleton_id : string;
  sk_nodes : NodeTable;
  sk_connectors : list ConnectorRow;
  sk_tags : Tags
}.

Inductive level := DEBUG | INFO | WARNING | ERROR.

(** Calls that leave the process. *)
Inductive call :=
| get_neuron_call (remote_instance : option Session) (skids : list string)
| get_names_call (remote_instance : option Session) (skids : list string)
| get_review_call (remote_instance : option Session) (skids : list string)
| get_annotations_call (remote_instance : option Session)
                       (skids : list string)
| get_volume_call (remote_instance : option Session) (names : list string).

(** The part of the process state the module reads and writes: the
    ambient [remote_instance] ([sys.modules] / [globals()]), the records
    handed to [module_logger], and the calls made to the server. *)
Record World := mkWorld {
  ambient : option Session;
  log : list (level * string);
  calls : list call
}.

Definition M (A : Type) : Type := World -> result A * World.

Definition ret {A} (a : A) : M A := fun w => (Ok a, w).
Definition bind {A B} (m : M A) (k : A -> M B) : M B :=
  fun w => match m w with
           | (Ok a, w') => k a w'
           | (Raise e, w') => (Raise e, w')
           end.
Definition raise {A} (e : exn) : M A := fun w => (Raise e, w).

(** [try: m except: h] *)
Definition try_except {A} (m : M A) (h : M A) : M A :=
  fun w => match m w with
           | (Ok a, w') => (Ok a, w')
           | (Raise _, w') => h w'
           end.

Definition logger (l : level) (msg : string) : M unit :=
  fun w => (Ok tt, mkWorld (ambient w) (log w ++ [(l, msg)]) (calls w)).
Definition record (c : call) : M unit :=
  fun w => (Ok tt, mkWorld (ambient w) (log w) (calls w ++ [c])).
Definition get_ambient : M (option Session) :=
  fun w => (Ok (ambient w), w).
Definition lift {A} (r : result A) : M A := fun w => (r, w).

(** [frame.ix[0]] and [frame.set_index('skeleton_id').loc[key]].  A
    frame in which [key] labels several rows is not a frame the callers
    can use; the model raises there as it does for a missing label. *)
Definition ix0 (frame : list Skeleton) : result Skeleton :=
  match frame with
  | [] => Raise IndexError
  | r :: _ => Ok r
  end.
Definition loc (frame : list Skeleton) (key : string) : result Skeleton :=
  match List.filter (fun r => String.eqb (sk_skeleton_id r) key) frame with
  | [r] => Ok r
  | _ => Raise (KeyError key)
  end.

End Data.

Notation "x <- m ;; k" := (Data.bind m (fun x => k))
  (at level 60, m at next level, right associativity).
Notation "m ;;; k" := (Data.bind m (fun _ => k))
  (at level 60, right associativity).

(** ** The collaborators of the core *)

Module Collaborators.
Import Py Data.

(** [pymaid.pymaid]: the functions that talk to the server.  Each gets
    the session argument it is called with and the list of skeleton ids
    (or volume names).  [get_neuron] and [get_review] answer with a
    frame (its rows, in order), the others with a dictionary. *)
Class Remote := {
  get_neuron : option Session -> list string -> result (list Skeleton);
  get_names : option Session -> list string -> result (gmap string string);
  get_review : option Session -> list string -> result (list (string * num));
  get_annotations :
    option Session -> list string -> result (gmap string (list string));
  get_volume : option Session -> list string -> result Volume.t
}.

(** [classify] gives the node types of a treenode table. *)
Class Classifier := {
  classify : list NodeRow -> list node_type
}.

End Collaborators.

(** ** CatmaidNeuron *)

Module CatmaidNeuron.
Import Py Data Collaborators.

(** The attribute store of a neuron.  The first five attributes are
    assigned by every run of [__init__]; each of the others is [None]
    while its key is not in [__dict__].  [neuron_name] may be present
    and hold Python's [None] (inner [None]).  [date_retrieved] and
    [_meta_data] are never read by the module and are left out. *)
Record t := mk {
  skeleton_id : string;
  _remote_instance : option Session;
  soma_detection_radius : Q;
  soma_detection_tag : option string;
  color : Z * Z * Z;
  nodes : option NodeTable;
  connectors : option (list ConnectorRow);
  tags : option Tags;
  neuron_name : option (option string);
  igraph : option Graph;
  slabs : option Slabs;
  nodes_geodesic_distance_matrix : option Matrix;
  review_status : option num;
  annotations : option (list string)
}.

Definition set_skeleton_id v (n : t) : t :=
  let 'mk _ b c d e f g h i j k l m o := n in mk v b c d e f g h i j k l m o.
Definition set_remote_instance v (n : t) : t :=
  let 'mk a _ c d e f g h i j k l m o := n in mk a v c d e f g h i j k l m o.
Definition set_soma_detection_radius v (n : t) : t :=
  let 'mk a b _ d e f g h i j k l m o := n in mk a b v d e f g h i j k l m o.
Definition set_soma_detection_tag v (n : t) : t :=
  let 'mk a b c _ e f g h i j k l m o := n in mk a b c v e f g h i j k l m o.
Definition set_color v (n : t) : t :=
  let 'mk a b c d _ f g h i j k l m o := n in mk a b c d v f g h i j k l m o.
Definition set_nodes v (n : t) : t :=
  let 'mk a b c d e _ g h i j k l m o := n in mk a b c d e v g h i j k l m o.
Definition set_connectors v (n : t) : t :=
  let 'mk a b c d e f _ h i j k l m o := n in mk a b c d e f v h i j k l m o.
Definition set_tags v (n : t) : t :=
  let 'mk a b c d e f g _ i j k l m o := n in mk a b c d e f g v i j k l m o.
Definition set_neuron_name v (n : t) : t :=
  let 'mk a b c d e f g h _ j k l m o := n in mk a b c d e f g h v j k l m o.
Definition set_igraph v (n : t) : t :=
  let 'mk a b c d e f g h i _ k l m o := n in mk a b c d e f g h i v k l m o.
Definition set_slabs v (n : t) : t :=
  let 'mk a b c d e f g h i j _ l m o := n in mk a b c d e f g h i j v l m o.
Definition set_nodes_geodesic_distance_matrix v (n : t) : t :=
  let 'mk a b c d e f g h i j k _ m o := n in mk a b c d e f g h i j k v m o.
Definition set_review_status v (n : t) : t :=
  let 'mk a b c d e f g h i j k l _ o := n in mk a b c d e f g h i j k l v o.
Definition set_annotations v (n : t) : t :=
  let 'mk a b c d e f g h i j k l m _ := n in mk a b c d e f g h i j k l m v.

(** An object on which [__init__] has not run yet. *)
Definition blank : t :=
  mk "" None 0%Q None (0, 0, 0) None None None None None None None None None.

(** A treenode id or a node tag. *)
Inductive node_ref :=
| by_id (n : num)
| by_tag (s : string).

Inductive volume_mode := IN | OUT.

(** [pymaid.morpho] and [pymaid.igraph_catmaid].  The derivations read
    the tables the neuron holds and are functions of it; the transforms
    work in place on the neuron and may log, fetch or raise. *)
Class Morpho := {
  neuron2graph : t -> Graph;
  shortest_paths_dijkstra : Graph -> Matrix;
  _generate_slabs : t -> Slabs;
  calc_cable : t -> num;
  reroot_neuron : t -> node_ref -> M t;
  cut_neuron : t -> node_ref -> M (t * (t * t));
  downsample_neuron : t -> Z -> bool -> M t;
  strahler_transform : t -> list Z -> bool -> M t;
  longest_neurite : t -> bool -> M t;
  in_volume : t -> Volume.t -> option Session -> volume_mode -> M t
}.

(** Values an attribute read can give. *)
Inductive value :=
| VNone
| VInt (z : Z)
| VNum (a : num)
| VStr (s : string)
| VIds (l : list num)
| VNodes (tbl : NodeTable)
| VConnectors (c : list ConnectorRow)
| VTags (tg : Tags)
| VGraph (g : Graph)
| VMatrix (m : Matrix)
| VSlabs (s : Slabs)
| VStrs (l : list string)
| VColor (c : Z * Z * Z)
| VSession (r : option Session).

Definition NA : value := VStr "NA".

Section Methods.
Context `{Remote} `{Classifier} `{Morpho}.

(** Modelled from the spec: [morpho.classify_nodes] is not among the
    sources.  The specification has it tag each node as root, branch,
    slab or end in place, and the source tests ['type' in nodes] before
    it calls it: it writes the [type] column of the treenode table.
    Which type a node gets is left to [classify]. *)
Definition classify_nodes (tbl : NodeTable) : NodeTable :=
  mkNodes (rows tbl) (Some (classify (rows tbl))) (flow_centrality tbl).

Definition drop (c : string) (tbl : NodeTable) : NodeTable :=
  if String.eqb c "flow_centrality" then mkNodes (rows tbl) (type tbl) None
  else if String.eqb c "type" then mkNodes (rows tbl) None (flow_centrality tbl)
  else tbl.

Definition has_column (c : string) (tbl : NodeTable) : bool :=
  if String.eqb c "flow_centrality" then bool_decide (is_Some (flow_centrality tbl))
  else if String.eqb c "type" then bool_decide (is_Some (type tbl))
  else false.

(** [delattr(self, a)] under [try/except: pass]. *)
Definition delattr (a : string) (self : t) : t :=
  if String.eqb a "igraph" then set_igraph None self
  else if String.eqb a "slabs" then set_slabs None self
  else if String.eqb a "nodes_geodesic_distance_matrix"
       then set_nodes_geodesic_distance_matrix None self
  else self.

(** The two loops and the reclassification of [_clear_temp_attr] once
    [self.nodes] is at hand. *)
Definition clear_with_nodes (self : t) (tbl : NodeTable) : t :=
  let self :=
    fold_left (fun s a => delattr a s)
              ["igraph"; "slabs"; "nodes_geodesic_distance_matrix"] self in
  let tbl :=
    fold_left (fun tb c => if has_column c tb then drop c tb else tb)
              ["flow_centrality"; "type"] tbl in
  set_nodes (Some (classify_nodes tbl)) self.

Definition get_skeleton (self : t) (remote_instance : option Session)
  : M t :=
  match remote_instance, _remote_instance self with
  | None, None =>
      raise (Exception "Get_skeleton - Unable to connect to server without remote_instance. See help(core.CatmaidNeuron) to learn how to assign.")
  | _, _ =>
      let remote_instance :=
        match remote_instance with
        | None => _remote_instance self
        | Some r => Some r
        end in
      logger INFO "Retrieving skeleton data..." ;;;
      record (get_neuron_call remote_instance [skeleton_id self]) ;;;
      frame <- lift (get_neuron remote_instance [skeleton_id self]) ;;
      skeleton <- lift (ix0 frame) ;;
      let sknodes :=
        if has_column "type" (sk_nodes skeleton) then sk_nodes skeleton
        else classify_nodes (sk_nodes skeleton) in
      let self := set_nodes (Some sknodes) self in
      let self := set_connectors (Some (sk_connectors skeleton)) self in
      let self := set_tags (Some (sk_tags skeleton)) self in
      let self := set_neuron_name (Some (Some (sk_neuron_name skeleton))) self in
      ret (clear_with_nodes self sknodes)
  end.

(** [self.nodes], [self.connectors], [self.tags]: the stored value,
    or [__getattr__]'s fetch when the key is missing. *)
Definition the {A} (what : string) (o : option A) : M A :=
  match o with
  | Some a => ret a
  | None => raise (AttributeError ("Attribute " ++ what ++ " not found"))
  end.

Definition self_nodes (self : t) : M (NodeTable * t) :=
  match nodes self with
  | Some tbl => ret (tbl, self)
  | None =>
      self <- get_skeleton self None ;;
      tbl <- the "nodes" (nodes self) ;;
      ret (tbl, self)
  end.

Definition self_connectors (self : t) : M (list ConnectorRow * t) :=
  match connectors self with
  | Some c => ret (c, self)
  | None =>
      self <- get_skeleton self None ;;
      c <- the "connectors" (connectors self) ;;
      ret (c, self)
  end.

Definition self_tags (self : t) : M (Tags * t) :=
  match tags self with
  | Some tg => ret (tg, self)
  | None =>
      self <- get_skeleton self None ;;
      tg <- the "tags" (tags self) ;;
      ret (tg, self)
  end.

Definition _clear_temp_attr (self : t) : M t :=
  let self :=
    fold_left (fun s a => delattr a s)
              ["igraph"; "slabs"; "nodes_geodesic_distance_matrix"] self in
  p <- self_nodes self ;;
  ret (clear_with_nodes (snd p) (fst p)).

Definition get_igraph (self : t) : M (Graph * t) :=
  let g := neuron2graph self in
  ret (g, set_igraph (Some g) self).

Definition _get_slabs (self : t) : M (Slabs * t) :=
  logger DEBUG ("Generating slabs for neuron " ++ skeleton_id self) ;;;
  let s := _generate_slabs self in
  ret (s, set_slabs (Some s) self).

(** The candidate list of [_get_soma] before the tag is looked at. *)
Definition over_radius (self : t) (tbl : NodeTable) : list num :=
  map treenode_id
      (List.filter (fun r => gt (radius r) (soma_detection_radius self))
              (rows tbl)).

Definition _get_soma (self : t) : M (value * t) :=
  p <- self_nodes self ;;
  let self := snd p in
  let tn := over_radius self (fst p) in
  let finish (tn : list num) (self : t) : M (value * t) :=
    match tn with
    | [n] => ret (VNum n, self)
    | [] => ret (VNone, self)
    | _ =>
        logger WARNING (skeleton_id self ++ ": Multiple possible somas found") ;;;
        ret (VIds tn, self)
    end in
  if truthy (soma_detection_tag self) then
    q <- self_tags self ;;
    let self := snd q in
    match fst q !! default "" (soma_detection_tag self) with
    | None => ret (VNone, self)
    | Some tagged => finish (List.filter (fun n => contains tagged n) tn) self
    end
  else finish tn self.

Definition _get_root (self : t) : M (value * t) :=
  p <- self_nodes self ;;
  match map treenode_id
            (List.filter (fun r => isnull (parent_id r)) (rows (fst p))) with
  | [] => raise IndexError
  | roots :: _ => ret (VNum roots, snd p)
  end.

Definition get_review (self : t) (remote_instance : option Session)
  : M (value * t) :=
  match remote_instance, _remote_instance self with
  | None, None =>
      logger ERROR "Get_review: Unable to connect to server. Please provide CatmaidInstance as <remote_instance>." ;;;
      ret (VNone, self)
  | _, _ =>
      let remote_instance :=
        match remote_instance with
        | None => _remote_instance self
        | Some r => Some r
        end in
      record (get_review_call remote_instance [skeleton_id self]) ;;;
      frame <- lift (Collaborators.get_review remote_instance [skeleton_id self]) ;;
      match frame with
      | [] => raise IndexError
      | (_, percent_reviewed) :: _ =>
          ret (VNum percent_reviewed,
               set_review_status (Some percent_reviewed) self)
      end
  end.

Definition get_annotations (self : t) (remote_instance : option Session)
  : M (value * t) :=
  match remote_instance, _remote_instance self with
  | None, None =>
      logger ERROR "Get_annotations: Need CatmaidInstance to retrieve annotations. Use neuron.get_annotations( remote_instance = CatmaidInstance )" ;;;
      ret (VNone, self)
  | _, _ =>
      let remote_instance :=
        match remote_instance with
        | None => _remote_instance self
        | Some r => Some r
        end in
      record (get_annotations_call remote_instance [skeleton_id self]) ;;;
      d <- lift (Collaborators.get_annotations remote_instance [skeleton_id self]) ;;
      match d !! skeleton_id self with
      | None => raise (KeyError (skeleton_id self))
      | Some an => ret (VStrs an, set_annotations (Some an) self)
      end
  end.

Definition get_name (self : t) (remote_instance : option Session)
  : M (value * t) :=
  match remote_instance, _remote_instance self with
  | None, None =>
      logger ERROR "Get_name: Need CatmaidInstance to retrieve annotations. Use neuron.get_annotations( remote_instance = CatmaidInstance )" ;;;
      ret (VNone, self)
  | _, _ =>
      let remote_instance :=
        match remote_instance with
        | None => _remote_instance self
        | Some r => Some r
        end in
      record (get_names_call remote_instance [skeleton_id self]) ;;;
      d <- lift (Collaborators.get_names remote_instance [skeleton_id self]) ;;
      match d !! skeleton_id self with
      | None => raise (KeyError (skeleton_id self))
      | Some nm => ret (VStr nm, set_neuron_name (Some (Some nm)) self)
      end
  end.

(** [self.nodes[self.nodes.type == ty]] *)
Definition of_type (tbl : NodeTable) (ty : node_type) : M (list NodeRow) :=
  match type tbl with
  | None => raise (AttributeError "'DataFrame' object has no attribute 'type'")
  | Some tys =>
      ret (map fst (List.filter (fun p => node_type_eqb (snd p) ty)
                           (zip (rows tbl) tys)))
  end.

Definition count {A} (l : list A) : Z := Z.of_nat (length l).

(** [self.igraph]: stored, or built by [__getattr__]. *)
Definition self_igraph (self : t) : M (Graph * t) :=
  match igraph self with
  | Some g => ret (g, self)
  | None => get_igraph self
  end.

Definition zero_when_empty : list string :=
  ["n_open_ends"; "n_branch_nodes"; "n_end_nodes"; "cable_length"].

Definition is_in (key : string) (l : list string) : bool :=
  existsb (String.eqb key) l.

Definition __getattr__ (self : t) (key : string) : M (value * t) :=
  if match nodes self with
     | Some tbl => empty tbl && is_in key zero_when_empty
     | None => false
     end
  then ret (VInt 0, self)
  else if String.eqb key "igraph" then
    p <- get_igraph self ;; ret (VGraph (fst p), snd p)
  else if String.eqb key "nodes_geodesic_distance_matrix" then
    logger INFO "Creating geodesic distance matrix for treenodes..." ;;;
    p <- self_igraph self ;;
    let m := shortest_paths_dijkstra (fst p) in
    ret (VMatrix m, set_nodes_geodesic_distance_matrix (Some m) (snd p))
  else if String.eqb key "neuron_name" then get_name self None
  else if String.eqb key "annotations" then get_annotations self None
  else if String.eqb key "review_status" then get_review self None
  else if String.eqb key "nodes" then
    self <- get_skeleton self None ;;
    tbl <- the "nodes" (nodes self) ;; ret (VNodes tbl, self)
  else if String.eqb key "connectors" then
    self <- get_skeleton self None ;;
    c <- the "connectors" (connectors self) ;; ret (VConnectors c, self)
  else if String.eqb key "slabs" then
    p <- _get_slabs self ;; ret (VSlabs (fst p), snd p)
  else if String.eqb key "soma" then _get_soma self
  else if String.eqb key "root" then _get_root self
  else if String.eqb key "tags" then
    self <- get_skeleton self None ;;
    tg <- the "tags" (tags self) ;; ret (VTags tg, self)
  else if String.eqb key "n_open_ends" then
    match nodes self with
    | Some _ =>
        q <- self_tags self ;;
        let tg := fst q in
        let closed :=
          default [] (tg !! "ends") ++ default [] (tg !! "uncertain end")
          ++ default [] (tg !! "uncertain continuation")
          ++ default [] (tg !! "not a branch") ++ default [] (tg !! "soma") in
        tbl <- the "nodes" (nodes (snd q)) ;;
        ends <- of_type tbl end_ ;;
        ret (VInt (count (List.filter (fun n => negb (contains closed n))
                                 (map treenode_id ends))), snd q)
    | None => ret (NA, self)
    end
  else if String.eqb key "n_branch_nodes" then
    match nodes self with
    | Some tbl => l <- of_type tbl branch ;; ret (VInt (count l), self)
    | None => ret (NA, self)
    end
  else if String.eqb key "n_end_nodes" then
    match nodes self with
    | Some tbl => l <- of_type tbl end_ ;; ret (VInt (count l), self)
    | None => ret (NA, self)
    end
  else if String.eqb key "n_nodes" then
    match nodes self with
    | Some tbl => ret (VInt (count (rows tbl)), self)
    | None => ret (NA, self)
    end
  else if String.eqb key "n_connectors" then
    match connectors self with
    | Some c => ret (VInt (count c), self)
    | None => ret (NA, self)
    end
  else if String.eqb key "n_presynapses" then
    match connectors self with
    | Some c =>
        ret (VInt (count (List.filter (fun r => eqb (relation r) (Num 0)) c)), self)
    | None => ret (NA, self)
    end
  else if String.eqb key "n_postsynapses" then
    match connectors self with
    | Some c =>
        ret (VInt (count (List.filter (fun r => eqb (relation r) (Num 1)) c)), self)
    | None => ret (NA, self)
    end
  else if String.eqb key "cable_length" then
    match nodes self with
    | Some _ => ret (VNum (calc_cable self), self)
    | None => ret (NA, self)
    end
  else raise (AttributeError ("Attribute " ++ key ++ " not found")).

(** Ordinary attribute lookup: the value stored under [key] in
    [__dict__], if any. *)
Definition __dict__ (self : t) (key : string) : option value :=
  if String.eqb key "skeleton_id" then Some (VStr (skeleton_id self))
  else if String.eqb key "_remote_instance" then
    Some (VSession (_remote_instance self))
  else if String.eqb key "soma_detection_radius" then
    Some (VNum (Num (soma_detection_radius self)))
  else if String.eqb key "soma_detection_tag" then
    Some (match soma_detection_tag self with Some s => VStr s | None => VNone end)
  else if String.eqb key "color" then Some (VColor (color self))
  else if String.eqb key "nodes" then VNodes <$> nodes self
  else if String.eqb key "connectors" then VConnectors <$> connectors self
  else if String.eqb key "tags" then VTags <$> tags self
  else if String.eqb key "neuron_name" then
    (fun o => match o with Some s => VStr s | None => VNone end)
      <$> neuron_name self
  else if String.eqb key "igraph" then VGraph <$> igraph self
  else if String.eqb key "slabs" then VSlabs <$> slabs self
  else if String.eqb key "nodes_geodesic_distance_matrix" then
    VMatrix <$> nodes_geodesic_distance_matrix self
  else if String.eqb key "review_status" then VNum <$> review_status self
  else if String.eqb key "annotations" then VStrs <$> annotations self
  else None.

(** [getattr(self, key)]: [__getattr__] runs only when the ordinary
    lookup finds nothing. *)
Definition getattr (self : t) (key : string) : M (value * t) :=
  match __dict__ self key with
  | Some v => ret (v, self)
  | None => __getattr__ self key
  end.

(** *** Construction *)

(** What [CatmaidNeuron(x, ...)] may be handed for [x]: a skeleton
    id, a row of a skeleton frame, a neuron, a frame, a neuron list,
    or a value of another type. *)
Inductive init_arg :=
| XInt (z : Z)
| XStr (s : string)
| XSeries (row : Skeleton)
| XNeuron (n : t)
| XFrame (frame : list Skeleton)
| XList (neurons : list t)
| XOther.

Definition init_from_neuron (self x : t) : M (t * t) :=
  let self := set_skeleton_id (skeleton_id x) self in
  let self := set_color (color x) self in
  p <- self_nodes x ;;
  let tbl :=
    if has_column "type" (fst p) then fst p else classify_nodes (fst p) in
  let x := set_nodes (Some tbl) (snd p) in
  let self := set_nodes (Some tbl) self in
  c <- self_connectors x ;;
  let self := set_connectors (Some (fst c)) self in
  tg <- self_tags (snd c) ;;
  let self := set_tags (Some (fst tg)) self in
  nm <- try_except (r <- getattr (snd tg) "neuron_name" ;; ret (Some r))
                   (ret None) ;;
  let self :=
    match nm with
    | Some (VStr s, _) => set_neuron_name (Some (Some s)) self
    | Some (_, _) => set_neuron_name (Some None) self
    | None => self
    end in
  let x := match nm with Some (_, x') => x' | None => snd tg end in
  let self :=
    match igraph x with Some g => set_igraph (Some g) self | None => self end in
  let self :=
    match slabs x with Some sl => set_slabs (Some sl) self | None => self end in
  let self := set_remote_instance (_remote_instance x) self in
  let self := set_soma_detection_radius (soma_detection_radius x) self in
  let self := set_soma_detection_tag (soma_detection_tag x) self in
  ret (self, x).

Definition init_from_series (self : t) (x : Skeleton) : t :=
  let self := set_skeleton_id (sk_skeleton_id x) self in
  let tbl :=
    if has_column "type" (sk_nodes x) then sk_nodes x
    else classify_nodes (sk_nodes x) in
  let self := set_nodes (Some tbl) self in
  let self := set_connectors (Some (sk_connectors x)) self in
  let self := set_tags (Some (sk_tags x)) self in
  set_neuron_name (Some (Some (sk_neuron_name x))) self.

(** [__init__] runs on a fresh object ([blank]) or, when a method
    calls [self.__init__] again, on the object as it stands.  It
    gives the object and, when [x] is a neuron, that neuron as the
    reads left it. *)
Definition __init__ (self : t) (x : init_arg)
           (remote_instance : option Session) : M (t * option t) :=
  let multiple :=
    raise (Exception "Unable to construct CatmaidNeuron from data containing multiple neurons. Try CatmaidNeuronList instead.") in
  x <- match x with
       | XFrame [row] => ret (XSeries row)
       | XFrame _ => multiple
       | XList [n] => ret (XNeuron n)
       | XList _ => multiple
       | XOther => raise (TypeError "Unable to construct CatmaidNeuron from data type")
       | _ => ret x
       end ;;
  remote_instance <- match remote_instance with
                     | Some r => ret (Some r)
                     | None => get_ambient
                     end ;;
  let self := set_remote_instance remote_instance self in
  let self := set_soma_detection_radius 500%Q self in
  let self := set_soma_detection_tag (Some "soma") self in
  let self := set_color (255, 255, 0) self in
  let not_an_id :=
    raise (Exception "Unable to construct CatmaidNeuron from data provided") in
  match x with
  | XNeuron n => p <- init_from_neuron self n ;; ret (fst p, Some (snd p))
  | XSeries row => ret (init_from_series self row, None)
  | XInt z => ret (set_skeleton_id (str z) self, None)
  | XStr s =>
      match int s with
      | Ok _ => ret (set_skeleton_id s self, None)
      | Raise _ => not_an_id
      end
  | _ => not_an_id
  end.

(** [CatmaidNeuron(x, remote_instance)] *)
Definition new (x : init_arg) (remote_instance : option Session) : M t :=
  p <- __init__ blank x remote_instance ;; ret (fst p).

(** [self.copy()]: the copy, and [self] as the reads left it. *)
Definition copy (self : t) : M (t * t) :=
  p <- __init__ blank (XNeuron self) None ;;
  ret (fst p, default self (snd p)).

(** *** Operations that change the skeleton *)

Definition downsample_inplace (self : t) (factor : Z)
           (preserve_cn_treenodes : bool) : M t :=
  self <- downsample_neuron self factor preserve_cn_treenodes ;;
  _clear_temp_attr self.

(** [downsample]: [self] afterwards and the value returned. *)
Definition downsample (self : t) (factor : Z)
           (preserve_cn_treenodes inplace : bool) : M (t * option t) :=
  if negb inplace then
    p <- copy self ;;
    nl_copy <- downsample_inplace (fst p) factor true ;;
    ret (snd p, Some nl_copy)
  else
    self <- downsample_inplace self factor preserve_cn_treenodes ;;
    ret (self, None).

Definition reroot (self : t) (new_root : node_ref) : M t :=
  self <- reroot_neuron self new_root ;;
  _clear_temp_attr self.

(** The loop of [prune_distal_to]: every cut replaces the neuron by
    the proximal part. *)
Fixpoint prune_distal_loop (self : t) (node : list node_ref) : M t :=
  match node with
  | [] => ret self
  | n :: rest =>
      r <- cut_neuron self n ;;
      let self := fst r in
      let prox := snd (snd r) in
      p <- __init__ self (XNeuron prox) (_remote_instance self) ;;
      prune_distal_loop (fst p) rest
  end.

Definition prune_distal_to (self : t) (node : list node_ref) : M t :=
  self <- prune_distal_loop self node ;;
  _clear_temp_attr self.

Definition prune_proximal_to (self : t) (node : node_ref) : M t :=
  r <- cut_neuron self node ;;
  let self := fst r in
  let dist := fst (snd r) in
  p <- __init__ self (XNeuron dist) (_remote_instance self) ;;
  _clear_temp_attr (fst p).

(** Modelled from the spec: [morpho.prune_by_strahler] is not among
    the sources.  The specification gives every operation that
    changes the skeleton the same two phases, the transform and the
    purge of the derived attributes, and the comment at the call in
    [CatmaidNeuron.prune_by_strahler] says the base function does the
    purge itself; so it is [strahler_transform] followed by
    [_clear_temp_attr]. *)
Definition morpho_prune_by_strahler (x : t) (to_prune : list Z)
           (reroot_soma : bool) : M t :=
  x <- strahler_transform x to_prune reroot_soma ;;
  _clear_temp_attr x.

Definition prune_by_strahler (self : t) (to_prune : list Z) : M t :=
  morpho_prune_by_strahler self to_prune true.

Definition prune_by_longest_neurite (self : t) (reroot_to_soma : bool)
  : M t :=
  self <- longest_neurite self reroot_to_soma ;;
  _clear_temp_attr self.

(** [v] is a [Volume] or the name(s) of volumes to fetch. *)
Definition prune_by_volume (self : t) (v : Volume.t + list string)
           (mode : volume_mode) : M t :=
  v <- match v with
       | inl vol => ret vol
       | inr names =>
           record (get_volume_call (_remote_instance self) names) ;;;
           lift (get_volume (_remote_instance self) names)
       end ;;
  self <- in_volume self v (_remote_instance self) mode ;;
  _clear_temp_attr self.

(** Modelled from the spec: [pymaid.get_neuron] is not among the
    sources.  Called without [return_df] it gives a neuron instead of a
    frame, taken here to be the neuron built from the frame it fetched
    with the session it was called with. *)
Definition fetch_neuron (skid : string) (remote_instance : option Session)
  : M t :=
  record (get_neuron_call remote_instance [skid]) ;;;
  frame <- lift (get_neuron remote_instance [skid]) ;;
  new (XFrame frame) remote_instance.

Definition reload (self : t) (remote_instance : option Session) : M t :=
  remote_instance <-
    match remote_instance, _remote_instance self with
    | None, None =>
        logger ERROR "Get_update: Unable to connect to server. Please provide CatmaidInstance as <remote_instance>." ;;;
        ret None
    | None, r => ret r
    | Some r, _ => ret (Some r)
    end ;;
  n <- fetch_neuron (skeleton_id self) remote_instance ;;
  p <- __init__ self (XNeuron n) (_remote_instance self) ;;
  _clear_temp_attr (fst p).

(** The operations that change the skeleton, and [self] after one of
    them ([downsample] in place, which is its default). *)
Inductive mutation :=
| Reroot (new_root : node_ref)
| PruneDistalTo (node : list node_ref)
| PruneProximalTo (node : node_ref)
| Downsample (factor : Z) (preserve_cn_treenodes : bool)
| PruneByStrahler (to_prune : list Z)
| PruneByLongestNeurite (reroot_to_soma : bool)
| PruneByVolume (v : Volume.t + list string) (mode : volume_mode)
| Reload (remote_instance : option Session).

Definition perform (op : mutation) (self : t) : M t :=
  match op with
  | Reroot new_root => reroot self new_root
  | PruneDistalTo node => prune_distal_to self node
  | PruneProximalTo node => prune_proximal_to self node
  | Downsample factor preserve =>
      p <- downsample self factor preserve true ;; ret (fst p)
  | PruneByStrahler to_prune => prune_by_strahler self to_prune
  | PruneByLongestNeurite reroot_to_soma =>
      prune_by_longest_neurite self reroot_to_soma
  | PruneByVolume v mode => prune_by_volume self v mode
  | Reload remote_instance => reload self remote_instance
  end.

(** No derived value is stored: neither the three attributes nor the
    classification column of the node table. *)
Definition derived_absent (n : t) : Prop :=
  igraph n = None /\ slabs n = None
  /\ nodes_geodesic_distance_matrix n = None
  /\ forall tbl, nodes n = Some tbl -> type tbl = None.

(** What the operations leave: the three attributes are not stored, and
    the node table carries a classification computed from the rows it
    has now and no [flow_centrality] column. *)
Definition purged (n : t) : Prop :=
  igraph n = None /\ slabs n = None
  /\ nodes_geodesic_distance_matrix n = None
  /\ exists tbl, nodes n = Some tbl
       /\ type tbl = Some (classify (rows tbl))
       /\ flow_centrality tbl = None.

(** *** from_swc *)

(** A row of [csv.reader(file, delimiter=' ')]: the fields between
    single blanks; an empty line gives the empty row.  (Quoting, which
    numeric tables do not use, is not represented.) *)
Fixpoint fields (line : string) : list string :=
  match line with
  | EmptyString => [EmptyString]
  | String c rest =>
      if Ascii.eqb c " " then EmptyString :: fields rest
      else match fields rest with
           | [] => [String c EmptyString]
           | f :: fs => String c f :: fs
           end
  end.

Definition csv_row (line : string) : list string :=
  if String.eqb line "" then [] else fields line.

(** The reading loop: empty rows and rows whose first field starts
    with [#] are left out. *)
Fixpoint read_rows (file : list string) : list (list string) :=
  match file with
  | [] => []
  | line :: rest =>
      match csv_row line with
      | [] => read_rows rest
      | field0 :: more =>
          if negb (startswith "#" field0)
          then (field0 :: more) :: read_rows rest
          else read_rows rest
      end
  end.

(** [[float(e) for e in row if e != '']] *)
Fixpoint floats (row : list string) : result (list num) :=
  match row with
  | [] => Ok []
  | e :: rest =>
      if String.eqb e "" then floats rest
      else match float e with
           | Raise err => Raise err
           | Ok a =>
               match floats rest with
               | Raise err => Raise err
               | Ok l => Ok (a :: l)
               end
           end
  end.

Fixpoint all_floats (data : list (list string)) : result (list (list num)) :=
  match data with
  | [] => Ok []
  | row :: rest =>
      match floats row with
      | Raise err => Raise err
      | Ok r =>
          match all_floats rest with
          | Raise err => Raise err
          | Ok l => Ok (r :: l)
          end
      end
  end.

(** A row of the frame with columns [treenode_id, label, x, y, z,
    radius, parent_id], and the same row after
    [nodes[['x','y','z','radius']] *= 1000]. *)
Definition swc_node (cells : list num) : NodeRow :=
  let cell i := default NaN (cells !! i) in
  mkNode (cell 0%nat) (cell 6%nat) (cell 2%nat) (cell 3%nat) (cell 4%nat)
         (cell 5%nat) [("label", cell 1%nat)].

Definition to_nm (r : NodeRow) : NodeRow :=
  mkNode (treenode_id r) (parent_id r) (mul (x r) 1000) (mul (y r) 1000)
         (mul (z r) 1000) (mul (radius r) 1000) (other r).

(** [pd.DataFrame(data, columns=[...7 names...], dtype=object)]: the
    longest row must have seven entries; shorter rows are filled up
    with missing values. *)
Definition frame7 (data : list (list num)) : result (list NodeRow) :=
  let width := foldr (fun r m => Nat.max (length r) m) 0%nat data in
  match data with
  | [] => Ok []
  | _ =>
      if Nat.eqb width 7 then Ok (map swc_node data)
      else Raise (AssertionError "7 columns passed, passed data had a different number of columns")
  end.

(** [from_swc(filename, neuron_name, neuron_id)].  [file] holds the
    lines of the file and [drawn] is the number [random.randint]
    gives when it is asked. *)
Definition from_swc (filename : string) (file : list string)
           (neuron_name : option string) (neuron_id : option Z)
           (drawn : Z) : M t :=
  let neuron_id :=
    match neuron_id with
    | Some i => if Z.eqb i 0 then drawn else i
    | None => drawn
    end in
  let neuron_name :=
    if truthy neuron_name then default filename neuron_name else filename in
  let data := read_rows file in
  cells <- lift (all_floats data) ;;
  nodes <- lift (frame7 cells) ;;
  let nodes := mkNodes (map to_nm nodes) None None in
  let df := [mkSkeleton neuron_name (str neuron_id) nodes [] ∅] in
  new (XFrame df) None.

End Methods.
End CatmaidNeuron.

(** ** CatmaidNeuronList *)

Module CatmaidNeuronList.
Import Py Data Collaborators.

(** The list holds its neurons in order.  A neuron is kept by value: no
    operation below tells two list positions that share one object from
    two equal objects.  The parallel paths ([_use_parallel], off unless
    asked for) are not represented. *)
Record t := mk {
  neurons : list CatmaidNeuron.t;
  copy_on_subset : bool
}.

Definition set_neurons (l : list CatmaidNeuron.t) (self : t) : t :=
  mk l (copy_on_subset self).

(** One record of a selection file. *)
Record entry := mkEntry {
  e_skeleton_id : Z;
  e_color : string;
  e_opacity : Z
}.

(** What a read of a list attribute gives. *)
Inductive value :=
| Array (l : list CatmaidNeuron.value)
| Shape (n : Z)
| Bool (b : bool)
| Instance (r : option Session).

Section Methods.
Context `{Remote} `{Classifier} `{CatmaidNeuron.Morpho}.

Fixpoint mapM {A B} (f : A -> M B) (l : list A) : M (list B) :=
  match l with
  | [] => ret []
  | a :: rest => b <- f a ;; bs <- mapM f rest ;; ret (b :: bs)
  end.

Fixpoint dedup_sessions (l : list Session) : list Session :=
  match l with
  | [] => []
  | a :: rest =>
      if existsb (session_eqb a) rest then dedup_sessions rest
      else a :: dedup_sessions rest
  end.

(** [self._remote_instance]: the branch of [__getattr__]. *)
Definition _remote_instance (self : t) : M (option Session) :=
  let all_instances :=
    omap CatmaidNeuron._remote_instance (neurons self) in
  let distinct := length (dedup_sessions all_instances) in
  if (1 <? distinct)%nat then
    logger DEBUG "Neurons are using multiple remote_instances! Returning first entry." ;;;
    ret None
  else if (distinct =? 0)%nat then
    raise (Exception "No remote_instance found. Use .set_remote_instance() to assign one to all neurons.")
  else ret (head all_instances).

Definition skeleton_id (self : t) : list string :=
  map CatmaidNeuron.skeleton_id (neurons self).

Definition lacks_nodes (n : CatmaidNeuron.t) : bool :=
  bool_decide (CatmaidNeuron.nodes n = None).
Definition lacks_name (n : CatmaidNeuron.t) : bool :=
  bool_decide (CatmaidNeuron.neuron_name n = None).
Definition lacks_annotations (n : CatmaidNeuron.t) : bool :=
  bool_decide (CatmaidNeuron.annotations n = None).

(** The body of the loop of [get_skeletons] for one neuron. *)
Definition fill_in (skdata : list Skeleton) (n : CatmaidNeuron.t)
  : M CatmaidNeuron.t :=
  row <- lift (loc skdata (CatmaidNeuron.skeleton_id n)) ;;
  let tbl :=
    if CatmaidNeuron.has_column "type" (sk_nodes row) then sk_nodes row
    else CatmaidNeuron.classify_nodes (sk_nodes row) in
  let n := CatmaidNeuron.set_nodes (Some tbl) n in
  let n := CatmaidNeuron.set_connectors (Some (sk_connectors row)) n in
  let n := CatmaidNeuron.set_tags (Some (sk_tags row)) n in
  let n := CatmaidNeuron.set_neuron_name (Some (Some (sk_neuron_name row))) n in
  CatmaidNeuron._clear_temp_attr n.

Definition get_skeletons (self : t) (skip_existing : bool) : M t :=
  let chosen (n : CatmaidNeuron.t) : bool :=
    if skip_existing then lacks_nodes n else true in
  let to_update := List.filter (fun n => chosen n) (neurons self) in
  match to_update with
  | [] => ret self
  | _ =>
      remote_instance <- _remote_instance self ;;
      let skids := map CatmaidNeuron.skeleton_id to_update in
      record (get_neuron_call remote_instance skids) ;;;
      skdata <- lift (get_neuron remote_instance skids) ;;
      l <- mapM (fun n => if chosen n then fill_in skdata n else ret n)
                (neurons self) ;;
      ret (set_neurons l self)
  end.

Definition get_names (self : t) (skip_existing : bool) : M t :=
  let to_update :=
    if skip_existing
    then map CatmaidNeuron.skeleton_id (List.filter (fun n => lacks_name n) (neurons self))
    else skeleton_id self in
  match to_update with
  | [] => ret self
  | _ =>
      remote_instance <- _remote_instance self ;;
      record (get_names_call remote_instance (skeleton_id self)) ;;;
      names <- lift (get_names remote_instance (skeleton_id self)) ;;
      ret (set_neurons
             (map (fun n =>
                     match names !! CatmaidNeuron.skeleton_id n with
                     | Some nm => CatmaidNeuron.set_neuron_name (Some (Some nm)) n
                     | None => n
                     end) (neurons self)) self)
  end.

Definition get_annotations (self : t) (skip_existing : bool) : M t :=
  let to_update :=
    if skip_existing
    then map CatmaidNeuron.skeleton_id
             (List.filter (fun n => lacks_annotations n) (neurons self))
    else skeleton_id self in
  match to_update with
  | [] => ret self
  | _ =>
      remote_instance <- _remote_instance self ;;
      record (get_annotations_call remote_instance to_update) ;;;
      annotations <- lift (get_annotations remote_instance to_update) ;;
      ret (set_neurons
             (map (fun n =>
                     match annotations !! CatmaidNeuron.skeleton_id n with
                     | Some an => CatmaidNeuron.set_annotations (Some an) n
                     | None => n
                     end) (neurons self)) self)
  end.

Definition reload (self : t) : M t := get_skeletons self false.

(** The attributes read off every neuron after one batched fetch. *)
Definition vectorized : list string :=
  ["n_nodes"; "n_connectors"; "n_presynapses"; "n_postsynapses";
   "n_open_ends"; "n_end_nodes"; "cable_length"; "tags"; "igraph";
   "soma"; "root"; "slabs"; "igraph"; "n_branch_nodes"].

(** [[getattr(n, key) for n in self.neurons]]: the values, and the
    neurons as the reads left them. *)
Definition read_all (key : string) (l : list CatmaidNeuron.t)
  : M (list (CatmaidNeuron.value * CatmaidNeuron.t)) :=
  mapM (fun n => CatmaidNeuron.getattr n key) l.

(** [__getattr__] on the branches for [shape], the vectorized
    attributes, [neuron_name], [skeleton_id], [_remote_instance] and
    [empty].  The branches for [nodes], [connectors], [review_status]
    and [annotations] are not represented ([None]). *)
Definition __getattr__ (self : t) (key : string) : option (M (value * t)) :=
  if String.eqb key "shape" then
    Some (ret (Shape (Z.of_nat (length (neurons self))), self))
  else if CatmaidNeuron.is_in key vectorized then
    Some (self <- get_skeletons self true ;;
          l <- read_all key (neurons self) ;;
          ret (Array (map fst l), set_neurons (map snd l) self))
  else if String.eqb key "neuron_name" then
    Some (self <- get_names self true ;;
          l <- read_all "neuron_name" (neurons self) ;;
          ret (Array (map fst l), set_neurons (map snd l) self))
  else if String.eqb key "skeleton_id" then
    Some (ret (Array (map CatmaidNeuron.VStr (skeleton_id self)), self))
  else if String.eqb key "nodes" then None
  else if String.eqb key "connectors" then None
  else if String.eqb key "_remote_instance" then
    Some (r <- _remote_instance self ;; ret (Instance r, self))
  else if String.eqb key "review_status" then None
  else if String.eqb key "annotations" then None
  else if String.eqb key "empty" then
    Some (ret (Bool (bool_decide (neurons self = [])), self))
  else Some (raise (AttributeError ("Attribute " ++ key ++ " not found"))).

(** *** Construction and the skeleton-id indexer *)

(** [CatmaidNeuronList(x)] for a list [x] of skeleton ids, rows or
    neurons, on the sequential path.  A list has no
    [remote_instance] attribute, so a missing [remote_instance] is
    looked up in the ambient state. *)
Definition is_list (e : CatmaidNeuron.init_arg) : bool :=
  match e with CatmaidNeuron.XList _ => true | _ => false end.

(** [x] with the neuron lists in it unpacked and moved to the end. *)
Definition unpack (x : list CatmaidNeuron.init_arg)
  : list CatmaidNeuron.init_arg :=
  List.filter (fun e => negb (is_list e)) x
  ++ concat (map (fun e => match e with
                           | CatmaidNeuron.XList l => map CatmaidNeuron.XNeuron l
                           | _ => []
                           end) x).

Definition new (x : list CatmaidNeuron.init_arg)
           (remote_instance : option Session) (make_copy : bool) : M t :=
  remote_instance <- match remote_instance with
                     | Some r => ret (Some r)
                     | None => get_ambient
                     end ;;
  let x := unpack x in
  l <- mapM (fun e =>
               match e with
               | CatmaidNeuron.XNeuron n =>
                   if make_copy
                   then CatmaidNeuron.new e remote_instance
                   else ret n
               | _ => CatmaidNeuron.new e remote_instance
               end) x ;;
  ret (mk l false).

(** [_SkidIndexer.__getitem__] with an integer key: the position of
    the first neuron whose id prints like the key. *)
Fixpoint skid_position (obj : list CatmaidNeuron.t) (skid : Z) : option nat :=
  match obj with
  | [] => None
  | n :: rest =>
      if String.eqb (CatmaidNeuron.skeleton_id n) (str skid) then Some 0%nat
      else S <$> skid_position rest skid
  end.

Definition skid_getitem (obj : list CatmaidNeuron.t) (skid : Z)
  : result CatmaidNeuron.t :=
  match skid_position obj skid with
  | Some i =>
      match obj !! i with
      | Some n => Ok n
      | None => Raise IndexError
      end
  | None => Raise (ValueError ("No neuron with skeleton ID " ++ str skid))
  end.

(** *** Selection files

    [json.dump] and [json.load] are taken to write and read back the
    list of records as it is; [cwd] is what [os.getcwd()] gives. *)

Definition hex_color (c : Z * Z * Z) : string :=
  let '(r, g, b) := c in
  String "#" (format_02x r ++ format_02x g ++ format_02x b).

Definition to_json (self : t) (fname cwd : string) : M (list entry) :=
  data <- mapM (fun n =>
                  skid <- lift (int (CatmaidNeuron.skeleton_id n)) ;;
                  ret (mkEntry skid (hex_color (CatmaidNeuron.color n)) 1))
               (neurons self) ;;
  logger INFO ("Selection saved as " ++ fname ++ " in " ++ cwd) ;;;
  ret data.

(** [tuple(int(e['color'].lstrip('#')[i:i+2], 16) for i in (0,2,4))] *)
Definition parse_color (color : string) : result (Z * Z * Z) :=
  let h := lstrip "#" color in
  match int16 (slice h 0 2) with
  | Raise e => Raise e
  | Ok r =>
      match int16 (slice h 2 4) with
      | Raise e => Raise e
      | Ok g =>
          match int16 (slice h 4 6) with
          | Raise e => Raise e
          | Ok b => Ok (r, g, b)
          end
      end
  end.

(** The loop [for e in data: nl.skid[e['skeleton_id']].color = ...] *)
Fixpoint add_colors (data : list entry) (l : list CatmaidNeuron.t)
  : result (list CatmaidNeuron.t) :=
  match data with
  | [] => Ok l
  | e :: rest =>
      match parse_color (e_color e) with
      | Raise err => Raise err
      | Ok c =>
          match skid_position l (e_skeleton_id e) with
          | None =>
              Raise (ValueError ("No neuron with skeleton ID " ++ str (e_skeleton_id e)))
          | Some i =>
              add_colors rest (alter (CatmaidNeuron.set_color c) i l)
          end
      end
  end.

Definition from_json (data : list entry) : M t :=
  nl <- new (map (fun e => CatmaidNeuron.XInt (e_skeleton_id e)) data)
            None true ;;
  l <- lift (add_colors data (neurons nl)) ;;
  ret (set_neurons l nl).

End Methods.
End CatmaidNeuronList.

(** ** Stand-ins for the collaborators

    Concrete collaborators to run the model on: a node classifier that
    follows the specification, a server that knows every skeleton id, and
    morphology routines that leave the neuron as it is. *)

Module StandIn.
Import Py Data Collaborators.

(** The number of nodes that name [r] as their parent. *)
Definition children (l : list NodeRow) (r : NodeRow) : nat :=
  length (List.filter (fun c => eqb (parent_id c) (treenode_id r)) l).

(** Modelled from the spec: [morpho.classify_nodes] is not among the
    sources.  The specification has it tag each node as root, branch,
    slab or end: a node without parent is the root; otherwise the number
    of nodes naming it as parent decides (none: end, one: slab, more:
    branch). *)
Definition classify_by_topology (l : list NodeRow) : list node_type :=
  map (fun r =>
         if isnull (parent_id r) then root
         else match children l r with
              | O => end_
              | 1%nat => slab
              | _ => branch
              end) l.

#[export] Instance classifier : Classifier :=
  {| classify := classify_by_topology |}.

Definition node (id parent : Z) (rad : Q) : NodeRow :=
  mkNode (Num (inject_Z id))
         (if Z.eqb parent 0 then NaN else Num (inject_Z parent))
         (Num 0) (Num 0) (Num 0) (Num rad) [].

(** What the stand-in server holds for every skeleton id: a chain
    1 <- 2 <- 3 whose root is thick and tagged as soma. *)
Definition served (skid : string) : Skeleton :=
  mkSkeleton ("neuron " ++ skid)%string skid
             (mkNodes [node 1 0 1000; node 2 1 10; node 3 2 10] None None)
             [] {[ "soma" := [Num 1] ]}.

#[export] Instance server : Remote :=
  {| get_neuron := fun _ skids => Ok (map served skids);
     get_names := fun _ skids =>
       Ok (list_to_map (map (fun k : string => (k, ("neuron " ++ k)%string)) skids));
     get_review := fun _ skids => Ok (map (fun k => (k, Num 100)) skids);
     get_annotations := fun _ skids =>
       Ok (list_to_map (map (fun k => (k, ["annotated"])) skids));
     get_volume := fun _ _ =>
       Ok (Volume.mk [] [] "volume" Volume.default_color) |}.

#[export] Instance morpho : CatmaidNeuron.Morpho :=
  {| CatmaidNeuron.neuron2graph := fun n =>
       match CatmaidNeuron.nodes n with
       | Some tbl => map (fun r => (treenode_id r, parent_id r, Num 1)) (rows tbl)
       | None => []
       end;
     CatmaidNeuron.shortest_paths_dijkstra := fun g => map (fun _ => []) g;
     CatmaidNeuron._generate_slabs := fun n =>
       match CatmaidNeuron.nodes n with
       | Some tbl => [map treenode_id (rows tbl)]
       | None => []
       end;
     CatmaidNeuron.calc_cable := fun n =>
       match CatmaidNeuron.nodes n with
       | Some tbl => Num (inject_Z (Z.of_nat (length (rows tbl))))
       | None => NaN
       end;
     CatmaidNeuron.reroot_neuron := fun n _ => ret n;
     CatmaidNeuron.cut_neuron := fun n _ => ret (n, (n, n));
     CatmaidNeuron.downsample_neuron := fun n _ _ => ret n;
     CatmaidNeuron.strahler_transform := fun n _ _ => ret n;
     CatmaidNeuron.longest_neurite := fun n _ => ret n;
     CatmaidNeuron.in_volume := fun n _ _ _ => ret n |}.

Definition session : Session := CatmaidInstance "https://catmaid.example".
Definition world0 : World := mkWorld None [] [].

End StandIn.

(** ** Notions the properties are stated with *)

Module Spec.
Import Py Data Collaborators.

(** The world after one more log record. *)
Definition logged (w : World) (l : level) (msg : string) : World :=
  mkWorld (ambient w) (log w ++ [(l, msg)]) (calls w).

(** A neuron as [__init__] leaves it for a bare skeleton id when no
    session is passed and none is ambient. *)
Definition bare (skid : string) : CatmaidNeuron.t :=
  CatmaidNeuron.mk skid None 500%Q (Some "soma") (255, 255, 0)
     None None None None None None None None None.

(** A row that the reading loop keeps. *)
Definition kept (row : list string) : bool :=
  match row with
  | [] => false
  | field0 :: _ => negb (startswith "#" field0)
  end.

(** The stored node for the seven numbers of a row. *)
Definition stored (cells : list num) : NodeRow :=
  let cell i := default NaN (cells !! i) in
  mkNode (cell 0%nat) (cell 6%nat) (mul (cell 2%nat) 1000) (mul (cell 3%nat) 1000)
         (mul (cell 4%nat) 1000) (mul (cell 5%nat) 1000) [("label", cell 1%nat)].

Section WithClassifier.
Context `{Classifier}.

(** The neuron [from_swc] builds from the numbers [cells] of the kept
    rows. *)
Definition imported (w : World) (skid name : string) (cells : list (list num))
  : CatmaidNeuron.t :=
  CatmaidNeuron.mk skid (ambient w) 500%Q (Some "soma") (255, 255, 0)
     (Some (mkNodes (map stored cells) (Some (classify (map stored cells))) None))
     (Some []) (Some ∅) (Some (Some name)) None None None None None.

End WithClassifier.





(** A colour channel that two hexadecimal digits can hold. *)
Definition channel (c : Z) : Prop := 0 <= c <= 255.
Definition rgb (c : Z * Z * Z) : Prop :=
  channel (fst (fst c)) /\ channel (snd (fst c)) /\ channel (snd c).

(** The neuron [CatmaidNeuron(z, remote_instance)] builds. *)
Definition fresh (ri : option Session) (z : Z) : CatmaidNeuron.t :=
  CatmaidNeuron.set_remote_instance ri (bare (str z)).

Definition entry_of (z : Z) (c : Z * Z * Z) : CatmaidNeuronList.entry :=
  CatmaidNeuronList.mkEntry z (CatmaidNeuronList.hex_color c) 1.

(** The neurons loaded for the ids [zs], with the colours [cs]. *)
Definition coloured (ri : option Session) (zs : list Z) (cs : list (Z * Z * Z))
  : list CatmaidNeuron.t :=
  zip_with (fun z c => CatmaidNeuron.set_color c (fresh ri z)) zs cs.

Definition two_digits_ok (c : Z) : bool :=
  match format_02x c with
  | String a (String b EmptyString) =>
      match int16 (String a (String b EmptyString)) with
      | Ok z => Z.eqb z c && negb (Ascii.eqb a "#")
      | Raise _ => false
      end
  | _ => false
  end.

End Spec.

(** ** Concrete neurons, lists and meshes *)

Module Examples.
Import Py Data Collaborators StandIn Spec.

Definition tetra : Volume.t :=
  Volume.mk [(0, 0, 0); (1, 0, 0); (0, 1, 0); (0, 0, 1)]%Q
     [(0, 1, 2); (0, 1, 3)] "a" Volume.default_color.
Definition tri : Volume.t :=
  Volume.mk [(5, 5, 5); (6, 5, 5); (5, 6, 5)]%Q [(2, 1, 0)] "b" Volume.default_color.

(** A fetched neuron of the stand-in server, its second node made thick
    and tagged as well. *)
Definition two_somas : CatmaidNeuron.t :=
  CatmaidNeuron.set_tags (Some {[ "soma" := [Num 1; Num 2] ]})
    (CatmaidNeuron.set_nodes (Some (mkNodes [node 1 0 1000; node 2 1 900; node 3 2 10]
                              None None))
               (bare "7")).

(** A neuron of the stand-in server with every derived value stored. *)
Definition loaded : CatmaidNeuron.t :=
  CatmaidNeuron.mk "7" (Some session) 500%Q (Some "soma") (255, 255, 0)
     (Some (mkNodes [node 1 0 1000; node 2 1 10; node 3 2 10]
                    (Some [end_; end_; end_]) (Some [Num 1; Num 2; Num 3])))
     (Some []) (Some {[ "soma" := [Num 1] ]}) (Some (Some "neuron 7"))
     (Some [(Num 1, NaN, Num 1)]) (Some [[Num 1]]) (Some [[Num 0]])
     None None.

(** [loaded] after [reroot]. *)
Definition rerooted : CatmaidNeuron.t :=
  CatmaidNeuron.mk "7" (Some session) 500%Q (Some "soma") (255, 255, 0)
     (Some (mkNodes [node 1 0 1000; node 2 1 10; node 3 2 10]
                    (Some [root; slab; end_]) None))
     (Some []) (Some {[ "soma" := [Num 1] ]}) (Some (Some "neuron 7"))
     None None None None None.


Definition chain_cells : list (list num) :=
  [[Num 1; Num 0; Num 10; Num 20; Num 30; Num 1; Num (-1)];
   [Num 2; Num 0; Num (105 # 10); Num 20; Num 30; Num 1; Num 1];
   [Num 3; Num 0; Num 11; Num 20; Num (3025 # 100); Num 1; Num 2]]%Q.

Definition chain_neuron : CatmaidNeuron.t := imported world0 "7" "chain.swc" chain_cells.

(** Two neurons with a session, the first with its skeleton fetched. *)
Definition fetched7 : CatmaidNeuron.t :=
  CatmaidNeuron.set_remote_instance (Some session) chain_neuron.
Definition unfetched8 : CatmaidNeuron.t :=
  CatmaidNeuron.set_remote_instance (Some session) (bare "8").
Definition two_neurons : CatmaidNeuronList.t :=
  CatmaidNeuronList.mk [fetched7; unfetched8] false.

(** Two neurons with a session: the first carries a name given on this
    side, the second has no name yet. *)
Definition named1 : CatmaidNeuron.t :=
  CatmaidNeuron.set_neuron_name (Some (Some "my name"))
    (CatmaidNeuron.set_remote_instance (Some session) (bare "1")).
Definition unnamed2 : CatmaidNeuron.t :=
  CatmaidNeuron.set_remote_instance (Some session) (bare "2").
Definition named_pair : CatmaidNeuronList.t :=
  CatmaidNeuronList.mk [named1; unnamed2] false.

(** Three neurons with different ids and colours. *)
Definition selection : CatmaidNeuronList.t :=
  CatmaidNeuronList.mk [CatmaidNeuron.set_color (255, 0, 16) (bare "16");
      CatmaidNeuron.set_color (0, 128, 7) (bare "21999");
      bare "22132"] false.

(** Two neurons under one skeleton id, with different colours. *)
Definition twins : CatmaidNeuronList.t :=
  CatmaidNeuronList.mk [CatmaidNeuron.set_color (0, 0, 0) (bare "1");
      CatmaidNeuron.set_color (1, 1, 1) (bare "1")] false.

End Examples.

(** ** Volume: the bounding box *)

Module VolumeBox.
Import Py Volume.

(** [a.min(axis=0)] and [a.max(axis=0)] along one column: the reduction
    of a column without entries has no value. *)
Definition reduce (f : Q -> Q -> Q) (column : list Q) : option Q :=
  match column with
  | [] => None
  | a :: rest => Some (fold_left f rest a)
  end.

(** The property [bbox]: one (min, max) pair per axis.  A volume without
    vertices has no box: numpy raises on the reduction of an array of
    size zero. *)
Definition bbox (v : t) : result (list (Q * Q)) :=
  let axis (coordinate : point -> Q) :=
    match reduce Qmin (map coordinate (vertices v)),
          reduce Qmax (map coordinate (vertices v)) with
    | Some lo, Some hi => Some (lo, hi)
    | _, _ => None
    end in
  match axis px, axis py, axis pz with
  | Some bx, Some by_, Some bz => Ok [bx; by_; bz]
  | _, _, _ =>
      Raise (ValueError "zero-size array to reduction operation minimum which has no identity")
  end.

(** [lo <= a <= hi] for one coordinate. *)
Definition within (b : Q * Q) (a : Q) : Prop := (fst b <= a /\ a <= snd b)%Q.

(** Both ends of [b] are the coordinate of some vertex. *)
Definition attained (b : Q * Q) (coordinate : point -> Q) (vs : list point)
  : Prop :=
  (exists p, In p vs /\ coordinate p == fst b)%Q
  /\ (exists p, In p vs /\ coordinate p == snd b)%Q.

End VolumeBox.

(** ** Assigning a session *)

Module NeuronSession.
Import Py Data.

(** [CatmaidNeuron.set_remote_instance].  A session object is truthy; a
    string is truthy unless it is empty.
    [pymaid.CatmaidInstance(server_url, http_user, http_pw, auth_token)]
    is the constructor of [Session], which keeps the URL of its
    arguments. *)
Definition set_remote_instance (self : CatmaidNeuron.t)
           (remote_instance : option Session)
           (server_url http_user http_pw auth_token : option string)
  : result CatmaidNeuron.t :=
  match remote_instance with
  | Some r => Ok (CatmaidNeuron.set_remote_instance (Some r) self)
  | None =>
      if truthy server_url && truthy auth_token then
        Ok (CatmaidNeuron.set_remote_instance
              (Some (CatmaidInstance (default "" server_url))) self)
      else Raise (Exception "Provide either CatmaidInstance or credentials.")
  end.

End NeuronSession.

Module ListSession.
Import Py Data.

(** [CatmaidNeuronList.set_remote_instance]: one session, passed or made
    from the credentials, is assigned to every neuron. *)
Definition set_remote_instance (self : CatmaidNeuronList.t)
           (remote_instance : option Session)
           (server_url http_user http_pw auth_token : option string)
  : result CatmaidNeuronList.t :=
  let assign (r : Session) :=
    Ok (CatmaidNeuronList.set_neurons
          (map (CatmaidNeuron.set_remote_instance (Some r))
               (CatmaidNeuronList.neurons self)) self) in
  match remote_instance with
  | None =>
      if truthy server_url && truthy auth_token
      then assign (CatmaidInstance (default "" server_url))
      else Raise (Exception "Provide either CatmaidInstance or credentials.")
  | Some r => assign r
  end.

End ListSession.

(** ** Annotations of a list and the filter on them *)

Module Annotated.
Import Py Data Collaborators.

Section Methods.
Context `{Remote} `{Classifier} `{CatmaidNeuron.Morpho}.

(** The branch of [CatmaidNeuronList.__getattr__] for [annotations]:
    one call for the neurons without annotations, whose answer must hold
    each of them, then one read per neuron.  [np.array] is taken to keep
    the list of lists as it is.  It gives the values read and the list
    as the reads left it. *)
Definition annotations (self : CatmaidNeuronList.t)
  : M (list CatmaidNeuron.value * CatmaidNeuronList.t) :=
  let to_retrieve :=
    map CatmaidNeuron.skeleton_id
        (List.filter (fun n => CatmaidNeuronList.lacks_annotations n)
                     (CatmaidNeuronList.neurons self)) in
  self <- match to_retrieve with
          | [] => ret self
          | _ =>
              remote_instance <- CatmaidNeuronList._remote_instance self ;;
              record (get_annotations_call remote_instance to_retrieve) ;;;
              re <- lift (get_annotations remote_instance to_retrieve) ;;
              l <- CatmaidNeuronList.mapM
                     (fun n =>
                        if CatmaidNeuronList.lacks_annotations n then
                          match re !! CatmaidNeuron.skeleton_id n with
                          | Some an =>
                              ret (CatmaidNeuron.set_annotations (Some an) n)
                          | None => raise (KeyError (CatmaidNeuron.skeleton_id n))
                          end
                        else ret n)
                     (CatmaidNeuronList.neurons self) ;;
              ret (CatmaidNeuronList.set_neurons l self)
          end ;;
  l <- CatmaidNeuronList.read_all "annotations" (CatmaidNeuronList.neurons self) ;;
  ret (map fst l, CatmaidNeuronList.set_neurons (map snd l) self).

(** [True in [a in x for a in an]] and
    [False not in [a in x for a in an]]; iterating over a value that is
    not a list of annotations raises. *)
Definition matches (x : list string) (intersect : bool)
           (an : CatmaidNeuron.value) : result bool :=
  match an with
  | CatmaidNeuron.VStrs an =>
      Ok (if intersect
          then forallb (fun a => CatmaidNeuron.is_in a x) an
          else existsb (fun a => CatmaidNeuron.is_in a x) an)
  | _ => Raise (TypeError "'NoneType' object is not iterable")
  end.

(** The list comprehension of [has_annotation] over
    [enumerate(self.annotations)]. *)
Fixpoint select (x : list string) (intersect : bool)
         (neurons : list CatmaidNeuron.t) (ans : list CatmaidNeuron.value)
  : result (list CatmaidNeuron.t) :=
  match neurons, ans with
  | n :: neurons, an :: ans =>
      match matches x intersect an with
      | Raise e => Raise e
      | Ok b =>
          match select x intersect neurons ans with
          | Raise e => Raise e
          | Ok rest => Ok (if b then n :: rest else rest)
          end
      end
  | _, _ => Ok []
  end.

(** [has_annotation(x, intersect)] for a list [x] of annotations (a
    single annotation is the list of it): the neurons selected, as a new
    list, and [self] as the reads left it. *)
Definition has_annotation (self : CatmaidNeuronList.t) (x : list string)
           (intersect : bool)
  : M (CatmaidNeuronList.t * CatmaidNeuronList.t) :=
  p <- annotations self ;;
  let self := snd p in
  selection <- lift (select x intersect (CatmaidNeuronList.neurons self) (fst p)) ;;
  match selection with
  | [] => raise (ValueError "No neurons with matching annotation(s) found")
  | _ =>
      nl <- CatmaidNeuronList.new (map CatmaidNeuron.XNeuron selection) None
              (CatmaidNeuronList.copy_on_subset self) ;;
      ret (nl, self)
  end.

End Methods.

End Annotated.

(** ** The summary of a neuron *)

Module Summary.
Import Py Data Collaborators CatmaidNeuron.

Section Methods.
Context `{Remote} `{Classifier} `{Morpho}.

(** [CatmaidNeuron.summary]: the entries of the series under their
    index labels, and [self] as the reads left it.  The name and the
    review status are looked up in [__dict__] only; the soma is read
    only when the node table is stored. *)
Definition summary (self : t) : M (list (string * value) * t) :=
  let neuron_name := default NA (__dict__ self "neuron_name") in
  let review_status := default NA (__dict__ self "review_status") in
  soma_temp <- match nodes self with
               | Some _ => getattr self "soma"
               | None => ret (NA, self)
               end ;;
  n_nodes <- getattr (snd soma_temp) "n_nodes" ;;
  n_connectors <- getattr (snd n_nodes) "n_connectors" ;;
  n_branch_nodes <- getattr (snd n_connectors) "n_branch_nodes" ;;
  n_end_nodes <- getattr (snd n_branch_nodes) "n_end_nodes" ;;
  n_open_ends <- getattr (snd n_end_nodes) "n_open_ends" ;;
  cable_length <- getattr (snd n_open_ends) "cable_length" ;;
  let self := snd cable_length in
  ret ([("type", VStr "<class 'pymaid.core.CatmaidNeuron'>");
        ("neuron_name", neuron_name);
        ("skeleton_id", VStr (skeleton_id self));
        ("n_nodes", fst n_nodes);
        ("n_connectors", fst n_connectors);
        ("n_branch_nodes", fst n_branch_nodes);
        ("n_end_nodes", fst n_end_nodes);
        ("n_open_ends", fst n_open_ends);
        ("cable_length", fst cable_length);
        ("review_status", review_status);
        ("soma", fst soma_temp)], self).

End Methods.

End Summary.

(** * Properties *)

(** ** Volume.combine *)

Module VolumeFacts.
Import Py Volume Spec Examples.

Lemma getitem_nonneg {A} (l : list A) (i : Z) :
  0 <= i < Z.of_nat (length l) -> getitem l i = l !! Z.to_nat i.
Proof.
  intros [H0 H1]. unfold getitem.
  destruct (Z.leb_spec 0 i); [|lia].
  destruct (Z.ltb_spec i (Z.of_nat (length l))); [|lia].
  reflexivity.
Qed.

Lemma combine_loop_eq (x : list t) : forall vs fs,
  combine_loop x vs fs
  = (vs ++ concat (map vertices x), fs ++ reindexed (length vs) x).
Proof.
  induction x as [|vol rest IH]; intros vs fs; simpl.
  - now rewrite !app_nil_r.
  - rewrite IH, length_app, <- !app_assoc. reflexivity.
Qed.

Lemma face_ok_reindex (n offs m : nat) (f : face) :
  (offs + n <= m)%nat -> face_ok n f ->
  face_ok m (reindex (Z.of_nat offs) f).
Proof.
  destruct f as [[a b] c]. unfold face_ok, index_ok; simpl. lia.
Qed.

Lemma reindexed_ok (x : list t) : forall offs m,
  Forall mesh_ok x ->
  (offs + length (concat (map vertices x)) <= m)%nat ->
  Forall (face_ok m) (reindexed offs x).
Proof.
  induction x as [|vol rest IH]; intros offs m Hx Hm; simpl.
  - constructor.
  - inversion Hx as [|? ? Hvol Hrest]; subst.
    simpl in Hm. rewrite length_app in Hm.
    apply Forall_app. split.
    + apply List.Forall_forall. intros f Hf.
      apply in_map_iff in Hf as (g & <- & Hg).
      apply face_ok_reindex with (n := length (vertices vol)); [lia|].
      unfold mesh_ok in Hvol. rewrite List.Forall_forall in Hvol.
      now apply Hvol.
    + apply IH; [assumption | lia].
Qed.

Lemma reindexed_lookup (x : list t) : forall offs j vol k f,
  x !! j = Some vol -> faces vol !! k = Some f ->
  reindexed offs x !! (faces_before j x + k)%nat
  = Some (reindex (Z.of_nat (offs + vertices_before j x)) f).
Proof.
  unfold faces_before, vertices_before.
  induction x as [|v rest IH]; intros offs j vol k f Hj Hk.
  - discriminate.
  - destruct j as [|j]; simpl in *.
    + injection Hj as ->.
      rewrite lookup_app_l.
      * rewrite list_lookup_fmap, Hk. simpl. do 2 f_equal. lia.
      * rewrite length_map. now apply lookup_lt_Some in Hk.
    + rewrite !length_app.
      rewrite lookup_app_r; rewrite length_map; [|lia].
      replace (length (faces v) + length (concat (map faces (take j rest)))
               + k - length (faces v))%nat
        with (length (concat (map faces (take j rest))) + k)%nat by lia.
      rewrite (IH _ j vol k f Hj Hk). do 3 f_equal. lia.
Qed.

Lemma reindexed_length (x : list t) : forall offs,
  length (reindexed offs x) = length (concat (map faces x)).
Proof.
  induction x as [|v rest IH]; intros offs; simpl; [reflexivity|].
  now rewrite !length_app, length_map, IH.
Qed.

Lemma vertices_split (x : list t) (j : nat) (vol : t) :
  x !! j = Some vol ->
  concat (map vertices x)
  = concat (map vertices (take j x)) ++ vertices vol
    ++ concat (map vertices (drop (S j) x)).
Proof.
  intros Hj. rewrite <- (take_drop_middle x j vol Hj) at 1.
  now rewrite map_app, concat_app.
Qed.

Lemma getitem_shift (pre mid post : list point) (i : Z) :
  index_ok (length mid) i ->
  getitem (pre ++ mid ++ post) (i + Z.of_nat (length pre)) = getitem mid i.
Proof.
  unfold index_ok. intros Hi.
  rewrite !getitem_nonneg by (rewrite ?length_app; lia).
  rewrite lookup_app_r by lia.
  replace (Z.to_nat (i + Z.of_nat (length pre)) - length pre)%nat
    with (Z.to_nat i) by lia.
  apply lookup_app_l. lia.
Qed.

(** C7: for a list of meshes whose face indices are positions of their
    own vertex sequence, [combine] gives the concatenated vertices, all
    its face indices are positions of the combined vertex sequence, and
    face [k] of input [j] appears re-based by the number of vertices in
    front of input [j] and resolves to the same three positions as the
    original face did in its own mesh. *)
Theorem combine_rebases_faces (x : list t) (nm : string)
        (col : Q * Q * Q * Q) :
  Forall mesh_ok x ->
  let c := combine (AList x) nm col in
  vertices c = concat (map vertices x)
  /\ length (faces c) = length (concat (map faces x))
  /\ mesh_ok c
  /\ forall j vol k f,
      x !! j = Some vol -> faces vol !! k = Some f ->
      let offs := Z.of_nat (vertices_before j x) in
      faces c !! (faces_before j x + k)%nat = Some (reindex offs f)
      /\ resolve (vertices c) (reindex offs f) = resolve (vertices vol) f.
Proof.
  intros Hx. unfold combine. rewrite combine_loop_eq. simpl.
  split; [reflexivity|]. split; [apply reindexed_length|].
  split.
  - unfold mesh_ok; simpl. apply reindexed_ok; [assumption|]. simpl; lia.
  - intros j vol k f Hj Hk. split.
    + now rewrite (reindexed_lookup x 0 j vol k f Hj Hk).
    + assert (Hf : face_ok (length (vertices vol)) f).
      { pose proof (Forall_lookup_1 _ _ _ _ Hx Hj) as Hvol.
        exact (Forall_lookup_1 _ _ _ _ Hvol Hk). }
      destruct f as [[a b] c']. destruct Hf as (Ha & Hb & Hc).
      unfold resolve, reindex, vertices_before.
      rewrite (vertices_split x j vol Hj).
      now rewrite !getitem_shift.
Qed.

Lemma combine_rebases_faces_witness :
  Forall mesh_ok [tetra; tri]
  /\ mesh_ok (combine (AList [tetra; tri]) default_name default_color).
Proof.
  assert (H : Forall mesh_ok [tetra; tri]).
  { repeat constructor; simpl; lia. }
  split; [exact H|].
  exact (proj1 (proj2 (proj2
           (combine_rebases_faces [tetra; tri] default_name default_color H)))).
Defined.

(** ** Volume.resize *)

Local Open Scope Q_scope.

Lemma resize_coordinates (v : t) (x : Q) :
  let cn := mean_axis0 (vertices v) in
  map px (vertices (resize v x)) = map (fun p => rescale (px cn) x (px p)) (vertices v)
  /\ map py (vertices (resize v x)) = map (fun p => rescale (py cn) x (py p)) (vertices v)
  /\ map pz (vertices (resize v x)) = map (fun p => rescale (pz cn) x (pz p)) (vertices v).
Proof.
  simpl. unfold resize; simpl. rewrite !map_map. repeat split.
Qed.

Lemma Qsum_rescale (c x : Q) (l : list Q) :
  Qsum (map (rescale c x) l)
  == (Qsum l - inject_Z (Z.of_nat (length l)) * c) * x
     + inject_Z (Z.of_nat (length l)) * c.
Proof.
  induction l as [|a l IH].
  - simpl. unfold inject_Z. ring.
  - cbn [map Qsum fold_right length]. fold (Qsum (map (rescale c x) l)).
    fold (Qsum l). rewrite IH, Nat2Z.inj_succ. unfold Z.succ.
    rewrite inject_Z_plus. unfold rescale. simpl (inject_Z 1). ring.
Qed.

Lemma mean_rescale (x : Q) (l : list Q) :
  l <> [] ->
  let n := inject_Z (Z.of_nat (length l)) in
  Qsum (map (rescale (Qsum l / n) x) l) / n == Qsum l / n.
Proof.
  intros Hl n. rewrite Qsum_rescale. fold n.
  assert (Hn : ~ n == 0).
  { unfold n, inject_Z, Qeq; simpl. destruct l; [contradiction|].
    simpl. lia. }
  field. exact Hn.
Qed.




End VolumeFacts.

(** ** CatmaidNeuron: attribute reads *)

Module NeuronFacts.
Import Py Data Collaborators CatmaidNeuron Spec Examples.

Lemma bind_ok {A B} (m : M A) (k : A -> M B) (w w' : World) (b : B) :
  bind m k w = (Ok b, w') ->
  exists a w1, m w = (Ok a, w1) /\ k a w1 = (Ok b, w').
Proof.
  unfold bind. destruct (m w) as [[a|e] w1]; [eauto | discriminate].
Qed.

Lemma bind_run {A B} (m : M A) (k : A -> M B) (w w1 : World) (a : A) :
  m w = (Ok a, w1) -> bind m k w = k a w1.
Proof. unfold bind. now intros ->. Qed.

Section WithCollaborators.
Context `{Remote} `{Classifier} `{Morpho}.

(** C9: once the node table has been fetched and holds no node, each
    of [n_open_ends], [n_branch_nodes], [n_end_nodes] and
    [cable_length] reads as the number 0; nothing is logged, fetched
    or stored. *)
Theorem empty_neuron_reads_zero (self : t) (tbl : NodeTable)
        (key : string) (w : World) :
  nodes self = Some tbl -> rows tbl = [] ->
  In key ["n_open_ends"; "n_branch_nodes"; "n_end_nodes"; "cable_length"] ->
  getattr self key w = (Ok (VInt 0, self), w).
Proof.
  intros Hn Hr Hk. unfold getattr, __getattr__, empty.
  rewrite Hn, Hr.
  repeat (destruct Hk as [<- | Hk]; [reflexivity|]).
  destruct Hk.
Qed.


Lemma new_bare (x : init_arg) (w w' : World) (n : t) :
  (exists z, x = XInt z) \/ (exists s, x = XStr s) ->
  ambient w = None ->
  new x None w = (Ok n, w') ->
  w' = w
  /\ n = bare (match x with XInt z => str z | XStr s => s | _ => "" end).
Proof.
  intros [[z ->]|[s ->]] Ha; unfold new, __init__, bind, ret, get_ambient;
    rewrite Ha; cbn.
  - intros [= <- <-]. split; reflexivity.
  - destruct (int s); cbn; [|discriminate].
    intros [= <- <-]. split; reflexivity.
Qed.

(** C3: a neuron built from a bare skeleton id, with no session
    passed and none ambient, raises on a read of [nodes],
    [connectors] or [tags]; logs an error and gives [None] on a read
    of [neuron_name], [review_status] or [annotations]; and gives
    the string form of the id on a read of [skeleton_id], without a
    fetch, a log record or an error. *)
Theorem bare_key_without_session (x : init_arg) (w w' : World) (n : t) :
  (exists z, x = XInt z) \/ (exists s, x = XStr s) ->
  ambient w = None ->
  new x None w = (Ok n, w') ->
  w' = w
  /\ skeleton_id n = match x with XInt z => str z | XStr s => s | _ => "" end
  /\ (forall w1, getattr n "skeleton_id" w1 = (Ok (VStr (skeleton_id n), n), w1))
  /\ (forall w1 key, In key ["nodes"; "connectors"; "tags"] ->
        getattr n key w1 =
        (Raise (Exception "Get_skeleton - Unable to connect to server without remote_instance. See help(core.CatmaidNeuron) to learn how to assign."), w1))
  /\ (forall w1, getattr n "neuron_name" w1 =
        (Ok (VNone, n), logged w1 ERROR "Get_name: Need CatmaidInstance to retrieve annotations. Use neuron.get_annotations( remote_instance = CatmaidInstance )"))
  /\ (forall w1, getattr n "review_status" w1 =
        (Ok (VNone, n), logged w1 ERROR "Get_review: Unable to connect to server. Please provide CatmaidInstance as <remote_instance>."))
  /\ (forall w1, getattr n "annotations" w1 =
        (Ok (VNone, n), logged w1 ERROR "Get_annotations: Need CatmaidInstance to retrieve annotations. Use neuron.get_annotations( remote_instance = CatmaidInstance )")).
Proof.
  intros Hx Ha Hnew.
  destruct (new_bare x w w' n Hx Ha Hnew) as [-> ->].
  split; [reflexivity|]. split; [reflexivity|].
  split; [intros w1; reflexivity|].
  split.
  { intros w1 key Hk.
    repeat (destruct Hk as [<- | Hk]; [reflexivity|]). destruct Hk. }
  repeat split; intros w1; reflexivity.
Qed.

End WithCollaborators.

Import StandIn.

Lemma empty_neuron_reads_zero_witness :
  getattr (set_nodes (Some (mkNodes [] None None)) (bare "7")) "cable_length"
          world0
  = (Ok (VInt 0, set_nodes (Some (mkNodes [] None None)) (bare "7")), world0).
Proof.
  apply (empty_neuron_reads_zero _ (mkNodes [] None None));
    [reflexivity | reflexivity | simpl; tauto].
Defined.


Lemma bare_key_without_session_witness :
  new (XStr "123456") None world0 = (Ok (bare "123456"), world0)
  /\ skeleton_id (bare "123456") = "123456"
  /\ getattr (bare "123456") "skeleton_id" world0
     = (Ok (VStr "123456", bare "123456"), world0)
  /\ exists msg,
      getattr (bare "123456") "nodes" world0 = (Raise (Exception msg), world0).
Proof.
  assert (Hnew : new (XStr "123456") None world0 = (Ok (bare "123456"), world0))
    by reflexivity.
  destruct (bare_key_without_session (XStr "123456") world0 world0
              (bare "123456")
              (or_intror (ex_intro _ "123456" eq_refl)) eq_refl Hnew)
    as (_ & Hid & Hskid & Hraise & _).
  split; [exact Hnew|]. split; [exact Hid|]. split.
  - exact (Hskid world0).
  - eexists. apply Hraise. simpl; tauto.
Defined.

End NeuronFacts.

(** ** CatmaidNeuron: operations that change the skeleton *)

Module MutationFacts.
Import Py Data Collaborators CatmaidNeuron Spec Examples NeuronFacts.

Section WithCollaborators.
Context `{Remote} `{Classifier} `{Morpho}.

Lemma clear_with_nodes_purged (self : t) (tbl : NodeTable) :
  purged (clear_with_nodes self tbl).
Proof.
  destruct self, tbl as [rs ty fc]. unfold purged.
  repeat split; try reflexivity.
  eexists. split; [reflexivity|].
  destruct ty, fc; split; reflexivity.
Qed.

Lemma clear_temp_attr_purged (self s' : t) (w w' : World) :
  _clear_temp_attr self w = (Ok s', w') -> purged s'.
Proof.
  unfold _clear_temp_attr. intros Hc.
  apply bind_ok in Hc as (p & w1 & _ & Hret).
  injection Hret as <- _. apply clear_with_nodes_purged.
Qed.

(** Every operation ends in [_clear_temp_attr]. *)
Lemma perform_ends_in_clear (op : mutation) (self s' : t) (w w' : World) :
  perform op self w = (Ok s', w') ->
  exists mid w1, _clear_temp_attr mid w1 = (Ok s', w').
Proof.
  destruct op; cbn [perform]; intros Hop.
  - unfold reroot in Hop. apply bind_ok in Hop as (a & w1 & _ & Hc). eauto.
  - unfold prune_distal_to in Hop.
    apply bind_ok in Hop as (a & w1 & _ & Hc). eauto.
  - unfold prune_proximal_to in Hop.
    apply bind_ok in Hop as (r & w1 & _ & Hop).
    apply bind_ok in Hop as (p & w2 & _ & Hc). eauto.
  - apply bind_ok in Hop as (p & w1 & Hd & Hret).
    injection Hret as <- <-.
    unfold downsample in Hd. cbn [negb] in Hd.
    apply bind_ok in Hd as (a & w2 & Hi & Hret).
    injection Hret as <- <-. cbn [fst].
    unfold downsample_inplace in Hi.
    apply bind_ok in Hi as (b & w3 & _ & Hc). eauto.
  - unfold prune_by_strahler, morpho_prune_by_strahler in Hop.
    apply bind_ok in Hop as (a & w1 & _ & Hc). eauto.
  - unfold prune_by_longest_neurite in Hop.
    apply bind_ok in Hop as (a & w1 & _ & Hc). eauto.
  - unfold prune_by_volume in Hop.
    apply bind_ok in Hop as (vol & w1 & _ & Hop).
    apply bind_ok in Hop as (a & w2 & _ & Hc). eauto.
  - unfold reload in Hop.
    apply bind_ok in Hop as (ri & w1 & _ & Hop).
    apply bind_ok in Hop as (n & w2 & _ & Hop).
    apply bind_ok in Hop as (p & w3 & _ & Hc). eauto.
Qed.

(** Reading a purged neuron builds the derived values anew from the
    neuron as it is now. *)
Lemma purged_reads_rebuild (s : t) (w : World) :
  purged s ->
  let g := neuron2graph s in
  getattr s "igraph" w = (Ok (VGraph g, set_igraph (Some g) s), w)
  /\ getattr s "slabs" w
     = (Ok (VSlabs (_generate_slabs s), set_slabs (Some (_generate_slabs s)) s),
        logged w DEBUG ("Generating slabs for neuron " ++ skeleton_id s))
  /\ getattr s "nodes_geodesic_distance_matrix" w
     = (Ok (VMatrix (shortest_paths_dijkstra g),
            set_nodes_geodesic_distance_matrix
              (Some (shortest_paths_dijkstra g)) (set_igraph (Some g) s)),
        logged w INFO "Creating geodesic distance matrix for treenodes...").
Proof.
  intros (Hi & Hs & Hm & tbl & Hn & _) g. subst g.
  destruct s; cbn in Hi, Hs, Hm, Hn; subst.
  unfold getattr, __getattr__; cbn.
  destruct (empty tbl); cbn; repeat split; reflexivity.
Qed.

(** C1 (amended): after each of the operations that change the skeleton
    has run to its end, [igraph], [slabs] and
    [nodes_geodesic_distance_matrix] are not stored, so that the next
    read builds them from the neuron as it is now; the classification
    column of the node table is stored, computed anew from the rows the
    table has now, and the [flow_centrality] column is gone. *)
Theorem mutation_purges_derived (op : mutation) (self s' : t) (w w' : World) :
  perform op self w = (Ok s', w') ->
  purged s'
  /\ forall w1,
      getattr s' "igraph" w1
      = (Ok (VGraph (neuron2graph s'), set_igraph (Some (neuron2graph s')) s'),
         w1)
      /\ getattr s' "slabs" w1
         = (Ok (VSlabs (_generate_slabs s'),
                set_slabs (Some (_generate_slabs s')) s'),
            logged w1 DEBUG ("Generating slabs for neuron " ++ skeleton_id s'))
      /\ getattr s' "nodes_geodesic_distance_matrix" w1
         = (Ok (VMatrix (shortest_paths_dijkstra (neuron2graph s')),
                set_nodes_geodesic_distance_matrix
                  (Some (shortest_paths_dijkstra (neuron2graph s')))
                  (set_igraph (Some (neuron2graph s')) s')),
            logged w1 INFO "Creating geodesic distance matrix for treenodes...").
Proof.
  intros Hop.
  destruct (perform_ends_in_clear op self s' w w' Hop) as (mid & w1 & Hc).
  pose proof (clear_temp_attr_purged mid s' w1 w' Hc) as Hp.
  split; [exact Hp|].
  intros w2. exact (purged_reads_rebuild s' w2 Hp).
Qed.

End WithCollaborators.

Import StandIn.

Lemma reroot_loaded :
  perform (Reroot (by_id (Num 3))) loaded world0 = (Ok rerooted, world0).
Proof. reflexivity. Qed.

Lemma mutation_purges_derived_witness :
  perform (Reroot (by_id (Num 3))) loaded world0 = (Ok rerooted, world0)
  /\ purged rerooted.
Proof.
  split; [exact reroot_loaded|].
  exact (proj1 (mutation_purges_derived (Reroot (by_id (Num 3))) loaded
                  rerooted world0 world0 reroot_loaded)).
Defined.

(** C1 as stated fails: after [reroot] the classification column is
    stored in the node table. *)
Lemma classification_present_after_reroot :
  ~ (forall (op : mutation) (self s' : t) (w w' : World),
        perform op self w = (Ok s', w') -> derived_absent s').
Proof.
  intros Habsent.
  destruct (Habsent _ _ _ _ _ reroot_loaded) as (_ & _ & _ & Hty).
  specialize (Hty _ eq_refl). discriminate Hty.
Qed.

End MutationFacts.

(** ** CatmaidNeuron.from_swc *)

Module SwcFacts.
Import Py Data Collaborators CatmaidNeuron Spec Examples NeuronFacts.

Lemma read_rows_filter (file : list string) :
  read_rows file = List.filter kept (map csv_row file).
Proof.
  induction file as [|line rest IH]; [reflexivity|].
  cbn [read_rows map List.filter]. unfold kept at 1.
  destruct (csv_row line) as [|field0 more]; [exact IH|].
  destruct (startswith "#" field0); cbn [negb]; [exact IH | now rewrite IH].
Qed.



(** A row of seven plain fields is read position by position. *)
Lemma floats_seven (f0 f1 f2 f3 f4 f5 f6 : string) (a0 a1 a2 a3 a4 a5 a6 : num) :
  float f0 = Ok a0 -> float f1 = Ok a1 -> float f2 = Ok a2 ->
  float f3 = Ok a3 -> float f4 = Ok a4 -> float f5 = Ok a5 ->
  float f6 = Ok a6 ->
  floats [f0; f1; f2; f3; f4; f5; f6] = Ok [a0; a1; a2; a3; a4; a5; a6]
  /\ stored [a0; a1; a2; a3; a4; a5; a6]
     = mkNode a0 a6 (mul a2 1000) (mul a3 1000) (mul a4 1000) (mul a5 1000)
              [("label", a1)].
Proof.
  intros H0 H1 H2 H3 H4 H5 H6. split; [|reflexivity].
  assert (Hne : forall f a, float f = Ok a -> String.eqb f "" = false).
  { intros f a Hf. destruct f; [discriminate Hf | reflexivity]. }
  cbn [floats].
  rewrite (Hne _ _ H0), H0, (Hne _ _ H1), H1, (Hne _ _ H2), H2, (Hne _ _ H3), H3,
    (Hne _ _ H4), H4, (Hne _ _ H5), H5, (Hne _ _ H6), H6.
  reflexivity.
Qed.

Section WithCollaborators.
Context `{Remote} `{Classifier} `{Morpho}.





End WithCollaborators.

Import StandIn.




(** On the same chain no row has a missing parent, and [.root] raises. *)
Lemma swc_chain_root_raises :
  getattr chain_neuron "root" world0 = (Raise IndexError, world0).
Proof. reflexivity. Qed.

End SwcFacts.

(** ** CatmaidNeuronList: batched reads *)

Module ListFacts.
Import Py Data Collaborators Spec Examples NeuronFacts.
Import CatmaidNeuronList.




(** Case analysis on whatever a [match] of the goal looks at, pairs
    apart. *)
Ltac break_matches :=
  repeat match goal with
         | |- context [match ?x with _ => _ end] =>
             lazymatch type of x with
             | prod _ _ => fail
             | _ => destruct x; cbn
             end
         end.

Section WithCollaborators.
Context `{Remote} `{Classifier} `{CatmaidNeuron.Morpho}.





Lemma remote_instance_calls (self : t) (w w' : World) (r : result (option Session)) :
  _remote_instance self w = (r, w') -> calls w' = calls w.
Proof.
  unfold _remote_instance.
  destruct (1 <? _)%nat; [|destruct (_ =? 0)%nat]; intros [= <- <-]; reflexivity.
Qed.




End WithCollaborators.

Import StandIn.


(** The same read, run: one call, for the neuron without node table. *)
Lemma pair_read_calls :
  exists m r w',
    __getattr__ two_neurons "cable_length" = Some m /\ m world0 = (r, w')
    /\ calls w' = [get_neuron_call (Some session) ["8"]].
Proof. eexists _, _, _. repeat split; reflexivity. Qed.

(** ** CatmaidNeuronList.get_names *)

(** C5 fails for [get_names]: under [skip_existing] it asks the server
    for the names of all neurons, the named one included, and writes the
    server's answer over the name that was stored. *)
Lemma get_names_skip_existing_overwrites :
  get_names named_pair true world0
  = (Ok (mk [CatmaidNeuron.set_neuron_name (Some (Some "neuron 1")) named1;
             CatmaidNeuron.set_neuron_name (Some (Some "neuron 2")) unnamed2]
            false),
     mkWorld None [] [get_names_call (Some session) ["1"; "2"]])
  /\ CatmaidNeuron.neuron_name named1 = Some (Some "my name").
Proof. split; reflexivity. Qed.

(** The sibling [get_annotations] asks for the missing ones only. *)
Lemma get_annotations_skip_existing_calls :
  let annotated1 :=
    CatmaidNeuron.set_annotations (Some ["mine"])
      (CatmaidNeuron.set_remote_instance (Some session) (bare "1")) in
  snd (get_annotations (mk [annotated1; unnamed2] false) true world0)
  = mkWorld None [] [get_annotations_call (Some session) ["2"]]
  /\ (neurons <$> match fst (get_annotations (mk [annotated1; unnamed2] false)
                                             true world0) with
                  | Ok nl => Some nl
                  | Raise _ => None
                  end)
     = Some [annotated1; CatmaidNeuron.set_annotations (Some ["annotated"]) unnamed2].
Proof. split; reflexivity. Qed.

End ListFacts.

(** ** CatmaidNeuronList: selection files *)

Module JsonFacts.
Import Py Data Collaborators Spec Examples NeuronFacts.
Import CatmaidNeuronList.

Lemma int_str (z : Z) : int (str z) = Ok z.
Proof.
  unfold int, str. rewrite DecimalString.NilZero.isi.
  - now rewrite DecimalZ.of_to.
  - destruct z; cbn; intros [= E].
    exact (DecimalPos.Unsigned.to_uint_nonnil _ E).
  - destruct z; cbn; intros [= E].
    exact (DecimalPos.Unsigned.to_uint_nonnil _ E).
Qed.

Lemma str_inj (a b : Z) : str a = str b -> a = b.
Proof.
  intros E. pose proof (int_str a) as Ha. rewrite E, int_str in Ha.
  now injection Ha.
Qed.

Lemma two_digits_all : forallb two_digits_ok (map Z.of_nat (seq 0 256)) = true.
Proof. vm_compute. reflexivity. Qed.

Lemma two_digits (c : Z) :
  channel c ->
  exists a b,
    format_02x c = String a (String b EmptyString)
    /\ int16 (String a (String b EmptyString)) = Ok c
    /\ Ascii.eqb a "#" = false.
Proof.
  intros Hc.
  assert (Hin : In c (map Z.of_nat (seq 0 256))).
  { apply in_map_iff. exists (Z.to_nat c). split; [unfold channel in Hc; lia|].
    apply in_seq. unfold channel in Hc. lia. }
  pose proof (proj1 (forallb_forall _ _) two_digits_all c Hin) as Hok.
  unfold two_digits_ok in Hok.
  destruct (format_02x c) as [|a [|b [|]]]; try discriminate.
  exists a, b. split; [reflexivity|].
  destruct (int16 _) as [z|]; [|discriminate].
  apply andb_true_iff in Hok as [Hz Ha].
  apply Z.eqb_eq in Hz. subst z. split; [reflexivity|].
  now destruct (Ascii.eqb a "#").
Qed.

Lemma parse_hex_color (c : Z * Z * Z) : rgb c -> parse_color (hex_color c) = Ok c.
Proof.
  destruct c as [[r g] b]. intros (Hr & Hg & Hb); cbn in Hr, Hg, Hb.
  destruct (two_digits r Hr) as (r1 & r2 & Er & Ir & Nr).
  destruct (two_digits g Hg) as (g1 & g2 & Eg & Ig & _).
  destruct (two_digits b Hb) as (b1 & b2 & Eb & Ib & _).
  unfold parse_color, hex_color. rewrite Er, Eg, Eb.
  change (lstrip "#" (String "#" _))
    with (if Ascii.eqb r1 "#"
          then lstrip "#" (String r2 (String g1 (String g2 (String b1 (String b2 "")))))
          else String r1 (String r2 (String g1 (String g2 (String b1 (String b2 "")))))).
  rewrite Nr.
  change (slice (String r1 (String r2 (String g1 (String g2 (String b1 (String b2 "")))))) 0 2)
    with (String r1 (String r2 "")).
  change (slice (String r1 (String r2 (String g1 (String g2 (String b1 (String b2 "")))))) 2 4)
    with (String g1 (String g2 "")).
  change (slice (String r1 (String r2 (String g1 (String g2 (String b1 (String b2 "")))))) 4 6)
    with (String b1 (String b2 "")).
  now rewrite Ir, Ig, Ib.
Qed.

Lemma skid_position_app (done l : list CatmaidNeuron.t) (z : Z) :
  Forall (fun n => CatmaidNeuron.skeleton_id n <> str z) done ->
  skid_position (done ++ l) z
  = (fun i => (length done + i)%nat) <$> skid_position l z.
Proof.
  induction 1 as [|n done Hn _ IH]; cbn.
  - now destruct (skid_position l z).
  - apply String.eqb_neq in Hn. rewrite Hn, IH.
    now destruct (skid_position l z).
Qed.

Section WithCollaborators.
Context `{Remote} `{Classifier} `{CatmaidNeuron.Morpho}.

Lemma new_fresh (z : Z) (w : World) :
  CatmaidNeuron.new (CatmaidNeuron.XInt z) (ambient w) w
  = (Ok (fresh (ambient w) z), w).
Proof.
  unfold CatmaidNeuron.new, CatmaidNeuron.__init__, bind, ret, get_ambient.
  destruct (ambient w) eqn:Ea; cbn; rewrite ?Ea; reflexivity.
Qed.

Lemma unpack_ints (zs : list Z) :
  unpack (map CatmaidNeuron.XInt zs) = map CatmaidNeuron.XInt zs.
Proof.
  unfold unpack.
  induction zs as [|z zs IH]; [reflexivity|].
  cbn [map List.filter is_list negb concat app]. f_equal. exact IH.
Qed.

Lemma new_ints (zs : list Z) (w : World) :
  new (map CatmaidNeuron.XInt zs) None true w
  = (Ok (mk (map (fresh (ambient w)) zs) false), w).
Proof.
  unfold new, bind at 1, get_ambient. rewrite unpack_ints.
  assert (Hm : mapM (fun e => match e with
                              | CatmaidNeuron.XNeuron n =>
                                  if true then CatmaidNeuron.new e (ambient w)
                                  else ret n
                              | _ => CatmaidNeuron.new e (ambient w)
                              end) (map CatmaidNeuron.XInt zs) w
               = (Ok (map (fresh (ambient w)) zs), w)).
  { induction zs as [|z zs IH]; [reflexivity|].
    cbn [map mapM]. unfold bind. rewrite new_fresh, IH. reflexivity. }
  unfold bind. rewrite Hm. reflexivity.
Qed.

Lemma add_colors_fresh (ri : option Session) (zs : list Z) :
  forall (cs : list (Z * Z * Z)) (done : list CatmaidNeuron.t),
    length zs = length cs -> NoDup zs -> Forall rgb cs ->
    Forall (fun n => forall z, In z zs -> CatmaidNeuron.skeleton_id n <> str z)
           done ->
    add_colors (zip_with entry_of zs cs) (done ++ map (fresh ri) zs)
    = Ok (done ++ coloured ri zs cs).
Proof.
  unfold coloured.
  induction zs as [|z zs IH]; intros cs done Hlen Hnd Hcs Hdone.
  - destruct cs; [|discriminate]. reflexivity.
  - destruct cs as [|c cs]; [discriminate|].
    injection Hlen as Hlen.
    apply NoDup_cons in Hnd as [Hz Hnd].
    inversion Hcs as [|? ? Hc Hcs']; subst.
    cbn [zip_with map add_colors entry_of e_color e_skeleton_id].
    rewrite (parse_hex_color c Hc).
    rewrite skid_position_app.
    2:{ eapply Forall_impl; [exact Hdone|]. intros n Hn. apply Hn. now left. }
    cbn [skid_position]. unfold fresh at 1. cbn [CatmaidNeuron.skeleton_id bare].
    assert (Hid : CatmaidNeuron.skeleton_id
                    (CatmaidNeuron.set_remote_instance ri (bare (str z)))
                  = str z) by reflexivity.
    rewrite Hid, String.eqb_refl. cbn [fmap option_fmap option_map].
    rewrite alter_app_r. cbn [alter list_alter].
    rewrite (cons_middle (CatmaidNeuron.set_color c (fresh ri z)) done
                         (map (fresh ri) zs)), app_assoc.
    rewrite IH; [now rewrite <- app_assoc | exact Hlen | exact Hnd | exact Hcs' |].
    apply Forall_app. split.
    + eapply Forall_impl; [exact Hdone|]. intros n Hn z' Hz'. apply Hn. now right.
    + constructor; [|constructor]. intros z' Hz' E.
      apply str_inj in E. subst z'.
      apply Hz. now apply list_elem_of_In.
Qed.

Lemma coloured_ids (ri : option Session) (zs : list Z) :
  forall cs, length zs = length cs ->
    map CatmaidNeuron.skeleton_id (coloured ri zs cs) = map str zs.
Proof.
  unfold coloured.
  induction zs as [|z zs IH]; intros [|c cs] Hlen; try discriminate;
    [reflexivity|].
  cbn [zip_with map]. f_equal. apply IH. now injection Hlen.
Qed.

Lemma coloured_colours (ri : option Session) (zs : list Z) :
  forall cs, length zs = length cs ->
    map CatmaidNeuron.color (coloured ri zs cs) = cs.
Proof.
  unfold coloured.
  induction zs as [|z zs IH]; intros [|c cs] Hlen; try discriminate;
    [reflexivity|].
  cbn [zip_with map]. f_equal. apply IH. now injection Hlen.
Qed.

Lemma entries_ids (zs : list Z) :
  forall cs, length zs = length cs ->
    map (fun e => CatmaidNeuron.XInt (e_skeleton_id e)) (zip_with entry_of zs cs)
    = map CatmaidNeuron.XInt zs.
Proof.
  induction zs as [|z zs IH]; intros [|c cs] Hlen; try discriminate;
    [reflexivity|].
  cbn [zip_with map]. f_equal. apply IH. now injection Hlen.
Qed.

Lemma to_json_entries (l : list CatmaidNeuron.t) (zs : list Z) (w : World) :
  Forall2 (fun n z => int (CatmaidNeuron.skeleton_id n) = Ok z) l zs ->
  mapM (fun n =>
          skid <- lift (int (CatmaidNeuron.skeleton_id n)) ;;
          ret (mkEntry skid (hex_color (CatmaidNeuron.color n)) 1)) l w
  = (Ok (zip_with entry_of zs (map CatmaidNeuron.color l)), w).
Proof.
  induction 1 as [|n z l zs Hn _ IH]; [reflexivity|].
  cbn [mapM map zip_with]. unfold bind, lift, ret in *. rewrite Hn, IH.
  reflexivity.
Qed.

(** C6 (amended): for a list whose neurons have skeleton ids that read as
    pairwise different integers and colours with channels in 0..255,
    saving the selection and loading it back succeeds, gives the neurons
    in the same order, each under the decimal numeral of its id (its id
    itself when that is stored as a decimal numeral), and each with the
    colour it was saved with. *)
Theorem selection_roundtrip (self : t) (zs : list Z) (fname cwd : string)
        (w : World) :
  Forall2 (fun n z => int (CatmaidNeuron.skeleton_id n) = Ok z)
          (neurons self) zs ->
  NoDup zs ->
  Forall (fun n => rgb (CatmaidNeuron.color n)) (neurons self) ->
  exists data w1 nl w2,
    to_json self fname cwd w = (Ok data, w1)
    /\ from_json data w1 = (Ok nl, w2)
    /\ map CatmaidNeuron.skeleton_id (neurons nl) = map str zs
    /\ map CatmaidNeuron.color (neurons nl)
       = map CatmaidNeuron.color (neurons self)
    /\ (Forall2 (fun n z => CatmaidNeuron.skeleton_id n = str z)
                (neurons self) zs ->
        map CatmaidNeuron.skeleton_id (neurons nl)
        = map CatmaidNeuron.skeleton_id (neurons self)).
Proof.
  intros Hids Hnd Hcol.
  assert (Hlen : length zs = length (map CatmaidNeuron.color (neurons self))).
  { rewrite length_map. symmetry. exact (Forall2_length _ _ _ Hids). }
  assert (Hcs : Forall rgb (map CatmaidNeuron.color (neurons self))).
  { clear - Hcol. induction Hcol; constructor; assumption. }
  exists (zip_with entry_of zs (map CatmaidNeuron.color (neurons self))),
    (logged w INFO ("Selection saved as " ++ fname ++ " in " ++ cwd)),
    (mk (coloured (ambient w) zs (map CatmaidNeuron.color (neurons self))) false),
    (logged w INFO ("Selection saved as " ++ fname ++ " in " ++ cwd)).
  split.
  { unfold to_json.
    rewrite (bind_run _ _ _ _ _ (to_json_entries _ zs w Hids)). reflexivity. }
  split.
  { unfold from_json. rewrite (entries_ids zs _ Hlen).
    rewrite (bind_run _ _ _ _ _ (new_ints zs _)). cbn [neurons].
    pose proof (add_colors_fresh (ambient w) zs _ [] Hlen Hnd Hcs
                  (List.Forall_nil _)) as Hadd.
    cbn [app] in Hadd. cbn [logged ambient].
    unfold bind, lift. rewrite Hadd. reflexivity. }
  cbn [neurons].
  split; [exact (coloured_ids _ zs _ Hlen)|].
  split; [exact (coloured_colours _ zs _ Hlen)|].
  intros Hcanon. rewrite (coloured_ids _ zs _ Hlen).
  clear - Hcanon. induction Hcanon; cbn; congruence.
Qed.

End WithCollaborators.

Import StandIn.

Lemma selection_roundtrip_witness :
  exists data w1 nl w2,
    to_json selection "selection.json" "/home" world0 = (Ok data, w1)
    /\ from_json data w1 = (Ok nl, w2)
    /\ map CatmaidNeuron.color (neurons nl)
       = [(255, 0, 16); (0, 128, 7); (255, 255, 0)].
Proof.
  assert (Hids : Forall2 (fun n z => int (CatmaidNeuron.skeleton_id n) = Ok z)
                         (neurons selection) [16; 21999; 22132]).
  { repeat constructor. }
  assert (Hnd : NoDup [16; 21999; 22132]).
  { repeat constructor; cbn; rewrite ?list_elem_of_In; cbn; lia. }
  assert (Hcol : Forall (fun n => rgb (CatmaidNeuron.color n)) (neurons selection)).
  { repeat constructor; cbn; lia. }
  destruct (selection_roundtrip selection [16; 21999; 22132] "selection.json"
              "/home" world0 Hids Hnd Hcol)
    as (data & w1 & nl & w2 & Hto & Hfrom & _ & Hc & _).
  exists data, w1, nl, w2. split; [exact Hto|]. split; [exact Hfrom|].
  exact Hc.
Defined.

(** C6 as stated fails on [twins]: both colours are written to the first
    neuron found under the id, and the second keeps the default colour. *)
Lemma twins_lose_colours :
  exists data w1 nl w2,
    to_json twins "selection.json" "/home" world0 = (Ok data, w1)
    /\ from_json data w1 = (Ok nl, w2)
    /\ map CatmaidNeuron.color (neurons nl) = [(1, 1, 1); (255, 255, 0)]
    /\ map CatmaidNeuron.color (neurons nl)
       <> map CatmaidNeuron.color (neurons twins).
Proof.
  eexists _, _, _, _. split; [reflexivity|]. split; [reflexivity|].
  split; [reflexivity|]. discriminate.
Qed.

End JsonFacts.

(** ** Volume: more on combine, resize and bbox *)

Module VolumeMoreFacts.
Import Py Volume VolumeBox Spec Examples VolumeFacts.

Lemma reindexed_shift (k : nat) (x : list t) : forall offs,
  map (reindex (Z.of_nat k)) (reindexed offs x) = reindexed (k + offs) x.
Proof.
  induction x as [|vol rest IH]; intros offs; cbn [reindexed]; [reflexivity|].
  rewrite map_app, List.map_map, IH. f_equal.
  - apply map_ext. intros [[a b] c]. unfold reindex. f_equal; [f_equal|]; lia.
  - f_equal. lia.
Qed.

Lemma reindexed_app (x y : list t) : forall offs,
  reindexed offs (x ++ y)
  = reindexed offs x ++ reindexed (offs + length (concat (map vertices x))) y.
Proof.
  induction x as [|vol rest IH]; intros offs; cbn [reindexed app map concat].
  - rewrite Nat.add_0_r. reflexivity.
  - rewrite IH, length_app, <- app_assoc. do 3 f_equal. lia.
Qed.

(** X1: Combining two combined volumes gives the vertices and the faces that
    combining all the volumes at once gives. *)
Theorem combine_of_combined (x y : list t) (nm nx ny : string)
        (col cx cy : Q * Q * Q * Q) :
  let both := combine (AList [combine (AList x) nx cx; combine (AList y) ny cy])
                      nm col in
  let flat := combine (AList (x ++ y)) nm col in
  vertices both = vertices flat /\ faces both = faces flat.
Proof.
  unfold combine. rewrite !combine_loop_eq.
  cbn [vertices faces app length reindexed map concat].
  rewrite !app_nil_r, map_app, concat_app. split; [reflexivity|].
  rewrite reindexed_app, !reindexed_shift. cbn [Nat.add Z.of_nat].
  rewrite Nat.add_0_r. reflexivity.
Qed.

Local Open Scope Q_scope.

Lemma resize_centroid (v : t) (x : Q) :
  vertices v <> [] ->
  peq (mean_axis0 (vertices (resize v x))) (mean_axis0 (vertices v)).
Proof.
  intros Hne.
  destruct (resize_coordinates v x) as (Hx & Hy & Hz).
  assert (Hlen : length (vertices (resize v x)) = length (vertices v)).
  { unfold resize; simpl. now rewrite !length_map. }
  assert (Hm : forall (f : point -> Q), map f (vertices v) <> []).
  { intros f E. apply Hne. destruct (vertices v); [reflexivity|discriminate]. }
  pose proof (mean_rescale x (map px (vertices v)) (Hm px)) as Ex.
  pose proof (mean_rescale x (map py (vertices v)) (Hm py)) as Ey.
  pose proof (mean_rescale x (map pz (vertices v)) (Hm pz)) as Ez.
  cbv zeta in Ex, Ey, Ez.
  rewrite List.length_map, List.map_map in Ex, Ey, Ez.
  unfold peq.
  change (px (mean_axis0 (vertices (resize v x))))
    with (Qsum (map px (vertices (resize v x)))
          / inject_Z (Z.of_nat (length (vertices (resize v x))))).
  change (py (mean_axis0 (vertices (resize v x))))
    with (Qsum (map py (vertices (resize v x)))
          / inject_Z (Z.of_nat (length (vertices (resize v x))))).
  change (pz (mean_axis0 (vertices (resize v x))))
    with (Qsum (map pz (vertices (resize v x)))
          / inject_Z (Z.of_nat (length (vertices (resize v x))))).
  rewrite Hx, Hy, Hz, Hlen.
  repeat split; [exact Ex | exact Ey | exact Ez].
Qed.

Lemma resize_vertices (v : t) (x : Q) :
  vertices (resize v x)
  = map (fun p => (rescale (px (mean_axis0 (vertices v))) x (px p),
                   rescale (py (mean_axis0 (vertices v))) x (py p),
                   rescale (pz (mean_axis0 (vertices v))) x (pz p)))
        (vertices v).
Proof. unfold resize; simpl. now rewrite !List.map_map. Qed.

Lemma rescale_twice (c c' x y a : Q) :
  c' == c -> rescale c' y (rescale c x a) == rescale c (x * y) a.
Proof. intros Hc. unfold rescale. rewrite Hc. ring. Qed.

Lemma Forall2_maps {A B} (R : B -> B -> Prop) (f g : A -> B) (l : list A) :
  (forall a, R (f a) (g a)) -> Forall2 R (map f l) (map g l).
Proof. intros Hfg. induction l; constructor; auto. Qed.

(** X2: Resizing by [x] and then by [y] puts every vertex where resizing by
    [x * y] puts it; so resizing by [x] and then by [1 / x] puts every
    vertex back (exact rational arithmetic, a volume with vertices). *)
Theorem resize_composes (v : t) (x y : Q) :
  vertices v <> [] ->
  Forall2 peq (vertices (resize (resize v x) y)) (vertices (resize v (x * y)))
  /\ (~ x == 0 ->
      Forall2 peq (vertices (resize (resize v x) (/ x))) (vertices v)).
Proof.
  intros Hne.
  destruct (resize_centroid v x Hne) as (Cx & Cy & Cz).
  assert (Hcomp : forall z,
             Forall2 peq (vertices (resize (resize v x) z))
                     (vertices (resize v (x * z)))).
  { intros z. rewrite (resize_vertices (resize v x) z).
    revert Cx Cy Cz. generalize (mean_axis0 (vertices (resize v x))).
    intros c' Cx Cy Cz.
    rewrite (resize_vertices v x), (resize_vertices v (x * z)), List.map_map.
    apply Forall2_maps. intros p. unfold peq, px, py, pz in *; cbn [fst snd].
    repeat split; apply rescale_twice; assumption. }
  split; [apply Hcomp|].
  intros Hx.
  assert (Hone : Forall2 peq (vertices (resize v (x * / x))) (vertices v)).
  { rewrite (resize_vertices v (x * / x)).
    rewrite <- (List.map_id (vertices v)) at 2.
    apply Forall2_maps. intros [[a b] c]. unfold peq, px, py, pz, rescale; cbn [fst snd].
    repeat split; field; exact Hx. }
  specialize (Hcomp (/ x)).
  clear - Hcomp Hone.
  revert Hone. generalize (vertices v).
  induction Hcomp as [|p q ps qs Hpq _ IH]; intros l Hone;
    inversion Hone as [|? r ? rs Hqr Hrest]; subst; constructor.
  - destruct Hpq as (H1 & H2 & H3), Hqr as (K1 & K2 & K3).
    repeat split; etransitivity; eassumption.
  - now apply IH.
Qed.

Lemma resize_composes_witness :
  vertices tri <> []
  /\ Forall2 peq (vertices (resize (resize tri (7 # 2)) (2 # 7))) (vertices tri).
Proof.
  assert (H : vertices tri <> []) by discriminate.
  split; [exact H|].
  apply (proj2 (resize_composes tri (7 # 2) (2 # 7) H)).
  unfold Qeq; cbn. lia.
Defined.

Lemma fold_min_below (l : list Q) : forall a,
  fold_left Qmin l a <= a /\ forall b, In b l -> fold_left Qmin l a <= b.
Proof.
  induction l as [|c l IH]; intros a; cbn [fold_left].
  - split; [apply Qle_refl | intros b []].
  - destruct (IH (Qmin a c)) as [H1 H2]. split.
    + eapply Qle_trans; [exact H1 | apply Q.le_min_l].
    + intros b [<- | Hb]; [|now apply H2].
      eapply Qle_trans; [exact H1 | apply Q.le_min_r].
Qed.

Lemma fold_max_above (l : list Q) : forall a,
  a <= fold_left Qmax l a /\ forall b, In b l -> b <= fold_left Qmax l a.
Proof.
  induction l as [|c l IH]; intros a; cbn [fold_left].
  - split; [apply Qle_refl | intros b []].
  - destruct (IH (Qmax a c)) as [H1 H2]. split.
    + eapply Qle_trans; [apply Q.le_max_l | exact H1].
    + intros b [<- | Hb]; [|now apply H2].
      eapply Qle_trans; [apply Q.le_max_r | exact H1].
Qed.

Lemma fold_min_attained (l : list Q) : forall a,
  fold_left Qmin l a == a \/ exists b, In b l /\ fold_left Qmin l a == b.
Proof.
  induction l as [|c l IH]; intros a; cbn [fold_left].
  - left. reflexivity.
  - destruct (IH (Qmin a c)) as [E | (b & Hb & E)].
    + destruct (Q.min_dec a c) as [M | M].
      * left. now rewrite E.
      * right. exists c. split; [now left | now rewrite E].
    + right. exists b. split; [now right | exact E].
Qed.

Lemma fold_max_attained (l : list Q) : forall a,
  fold_left Qmax l a == a \/ exists b, In b l /\ fold_left Qmax l a == b.
Proof.
  induction l as [|c l IH]; intros a; cbn [fold_left].
  - left. reflexivity.
  - destruct (IH (Qmax a c)) as [E | (b & Hb & E)].
    + destruct (Q.max_dec a c) as [M | M].
      * left. now rewrite E.
      * right. exists c. split; [now left | now rewrite E].
    + right. exists b. split; [now right | exact E].
Qed.

(** One axis of the box: every vertex lies between the two ends, and
    each end is the coordinate of a vertex. *)
Lemma axis_box (coordinate : point -> Q) (vs : list point) (lo hi : Q) :
  reduce Qmin (map coordinate vs) = Some lo ->
  reduce Qmax (map coordinate vs) = Some hi ->
  (forall p, In p vs -> within (lo, hi) (coordinate p))
  /\ attained (lo, hi) coordinate vs.
Proof.
  destruct vs as [|p0 vs]; [discriminate|].
  cbn [map reduce]. intros [= <-] [= <-].
  destruct (fold_min_below (map coordinate vs) (coordinate p0)) as [L0 L].
  destruct (fold_max_above (map coordinate vs) (coordinate p0)) as [U0 U].
  split.
  - intros p [<- | Hp]; unfold within; cbn [fst snd]; [now split|].
    split; [apply L | apply U]; now apply in_map.
  - unfold attained; cbn [fst snd]. split.
    + destruct (fold_min_attained (map coordinate vs) (coordinate p0))
        as [E | (b & Hb & E)].
      * exists p0. split; [now left | now symmetry].
      * apply in_map_iff in Hb as (p & <- & Hp).
        exists p. split; [now right | now symmetry].
    + destruct (fold_max_attained (map coordinate vs) (coordinate p0))
        as [E | (b & Hb & E)].
      * exists p0. split; [now left | now symmetry].
      * apply in_map_iff in Hb as (p & <- & Hp).
        exists p. split; [now right | now symmetry].
Qed.

(** X3: [bbox] raises exactly on a volume without vertices; otherwise it has
    one pair per axis, every vertex lies within the pair of each axis,
    and each end of each pair is the coordinate of some vertex. *)
Theorem bbox_bounds (v : t) :
  (vertices v = [] <-> exists e, bbox v = Raise e)
  /\ forall b, bbox v = Ok b ->
       exists bx by_ bz,
         b = [bx; by_; bz]
         /\ (forall p, In p (vertices v) ->
               within bx (px p) /\ within by_ (py p) /\ within bz (pz p))
         /\ attained bx px (vertices v)
         /\ attained by_ py (vertices v)
         /\ attained bz pz (vertices v).
Proof.
  split.
  - unfold bbox. destruct (vertices v) as [|p0 vs]; cbn [map reduce].
    + split; [eauto | reflexivity].
    + split; [discriminate | intros [e He]; discriminate He].
  - intros b. unfold bbox.
    destruct (reduce Qmin (map px (vertices v))) as [lx|] eqn:Lx; [|discriminate].
    destruct (reduce Qmax (map px (vertices v))) as [hx|] eqn:Hx; [|discriminate].
    destruct (reduce Qmin (map py (vertices v))) as [ly|] eqn:Ly; [|discriminate].
    destruct (reduce Qmax (map py (vertices v))) as [hy|] eqn:Hy; [|discriminate].
    destruct (reduce Qmin (map pz (vertices v))) as [lz|] eqn:Lz; [|discriminate].
    destruct (reduce Qmax (map pz (vertices v))) as [hz|] eqn:Hz; [|discriminate].
    intros [= <-].
    destruct (axis_box px _ _ _ Lx Hx) as [Wx Ax].
    destruct (axis_box py _ _ _ Ly Hy) as [Wy Ay].
    destruct (axis_box pz _ _ _ Lz Hz) as [Wz Az].
    exists (lx, hx), (ly, hy), (lz, hz).
    split; [reflexivity|].
    split; [|split; [exact Ax | split; [exact Ay | exact Az]]].
    intros p Hp. split; [apply Wx | split; [apply Wy | apply Wz]]; exact Hp.
Qed.

Lemma bbox_bounds_witness :
  bbox tetra = Ok [(0, 1); (0, 1); (0, 1)]
  /\ forall p, In p (vertices tetra) -> within (0, 1) (px p).
Proof.
  assert (H : bbox tetra = Ok [(0, 1); (0, 1); (0, 1)]) by reflexivity.
  split; [exact H|].
  destruct (proj2 (bbox_bounds tetra) _ H) as (bx & by_ & bz & E & W & _).
  injection E as <- <- <-.
  intros p Hp. exact (proj1 (W p Hp)).
Defined.

End VolumeMoreFacts.

(** ** CatmaidNeuron: more on reads, fetches and copies *)

Module NeuronMoreFacts.
Import Py Data Collaborators CatmaidNeuron Spec Examples NeuronFacts.

Lemma filter_first {A} (f : A -> bool) (l : list A) :
  match List.filter f l with
  | [] => Forall (fun a => f a = false) l
  | a :: _ =>
      exists pre post,
        l = pre ++ a :: post /\ Forall (fun b => f b = false) pre /\ f a = true
  end.
Proof.
  induction l as [|a l IH]; cbn [List.filter]; [constructor|].
  destruct (f a) eqn:E.
  - exists [], l. repeat split; [constructor | exact E].
  - destruct (List.filter f l) as [|b rest].
    + constructor; assumption.
    + destruct IH as (pre & post & -> & Hpre & Hb).
      exists (a :: pre), post. repeat split; [constructor; assumption | exact Hb].
Qed.

Section WithCollaborators.
Context `{Remote} `{Classifier} `{Morpho}.

Lemma dict_hit (n : t) (key : string) (v : value) (w : World) :
  __dict__ n key = Some v -> getattr n key w = (Ok (v, n), w).
Proof. unfold getattr. now intros ->. Qed.

(** X4: [.root] of a neuron that holds its node table is the id of the first
    row without parent, also when several rows have none; when every row
    has a parent, and so for a table without rows, the read raises
    [IndexError].  Nothing is fetched, logged or stored. *)
Theorem root_is_first_parentless (self : t) (tbl : NodeTable) (w : World) :
  nodes self = Some tbl ->
  (Forall (fun r => isnull (parent_id r) = false) (rows tbl)
   /\ getattr self "root" w = (Raise IndexError, w))
  \/ (exists pre r post,
        rows tbl = pre ++ r :: post
        /\ Forall (fun r' => isnull (parent_id r') = false) pre
        /\ isnull (parent_id r) = true
        /\ getattr self "root" w = (Ok (VNum (treenode_id r), self), w)).
Proof.
  intros Hn.
  assert (Hempty : empty tbl && is_in "root" zero_when_empty = false)
    by apply andb_false_r.
  assert (Hread : getattr self "root" w
                  = match map treenode_id
                            (List.filter (fun r => isnull (parent_id r)) (rows tbl)) with
                    | [] => (Raise IndexError, w)
                    | a :: _ => (Ok (VNum a, self), w)
                    end).
  { unfold getattr, __getattr__. cbn [__dict__ String.eqb Ascii.eqb Bool.eqb].
    rewrite Hn, Hempty. cbn [String.eqb Ascii.eqb Bool.eqb].
    unfold _get_root, self_nodes, bind, ret. rewrite Hn. cbn [fst snd].
    destruct (map treenode_id _); reflexivity. }
  pose proof (filter_first (fun r => isnull (parent_id r)) (rows tbl)) as Hf.
  destruct (List.filter _ (rows tbl)) as [|r rest]; cbn [map] in Hread.
  - left. split; assumption.
  - right. destruct Hf as (pre & post & Hrows & Hpre & Hr).
    exists pre, r, post. repeat split; assumption.
Qed.

(** X5: The counts and the cable length of a neuron whose skeleton has not
    been fetched read as ['NA']: a read of one of them never fetches,
    logs or stores anything. *)
Theorem counts_never_fetch (self : t) (key : string) (w : World) :
  nodes self = None -> connectors self = None ->
  In key ["n_open_ends"; "n_branch_nodes"; "n_end_nodes"; "n_nodes";
          "n_connectors"; "n_presynapses"; "n_postsynapses"; "cable_length"] ->
  getattr self key w = (Ok (NA, self), w).
Proof.
  intros Hn Hc Hk.
  destruct self; cbn in Hn, Hc; subst.
  repeat (destruct Hk as [<- | Hk]; [reflexivity|]).
  destruct Hk.
Qed.

(** What [clear_with_nodes] leaves, attribute by attribute. *)
Lemma clear_with_nodes_frame (self : t) (tbl : NodeTable) :
  clear_with_nodes self tbl
  = mk (skeleton_id self) (_remote_instance self) (soma_detection_radius self)
       (soma_detection_tag self) (color self)
       (Some (mkNodes (rows tbl) (Some (classify (rows tbl))) None))
       (connectors self) (tags self) (neuron_name self) None None None
       (review_status self) (annotations self).
Proof. destruct self, tbl as [rs [ty|] [fc|]]; reflexivity. Qed.

Lemma get_skeleton_ok (self s' : t) (ri : option Session) (w w' : World) :
  get_skeleton self ri w = (Ok s', w') ->
  let used := match ri with Some r => Some r | None => _remote_instance self end in
  exists row rest,
    used <> None
    /\ get_neuron used [skeleton_id self] = Ok (row :: rest)
    /\ w' = mkWorld (ambient w)
                    (log w ++ [(INFO, "Retrieving skeleton data...")])
                    (calls w ++ [get_neuron_call used [skeleton_id self]])
    /\ s' = mk (skeleton_id self) (_remote_instance self)
               (soma_detection_radius self) (soma_detection_tag self) (color self)
               (Some (mkNodes (rows (sk_nodes row))
                              (Some (classify (rows (sk_nodes row)))) None))
               (Some (sk_connectors row)) (Some (sk_tags row))
               (Some (Some (sk_neuron_name row))) None None None
               (review_status self) (annotations self).
Proof.
  intros Hg used.
  assert (Hbody :
    used <> None ->
    (logger INFO "Retrieving skeleton data..." ;;;
     record (get_neuron_call used [skeleton_id self]) ;;;
     frame <- lift (get_neuron used [skeleton_id self]) ;;
     skeleton <- lift (ix0 frame) ;;
     let sknodes :=
       if has_column "type" (sk_nodes skeleton) then sk_nodes skeleton
       else classify_nodes (sk_nodes skeleton) in
     ret (clear_with_nodes
            (set_neuron_name (Some (Some (sk_neuron_name skeleton)))
               (set_tags (Some (sk_tags skeleton))
                  (set_connectors (Some (sk_connectors skeleton))
                     (set_nodes (Some sknodes) self)))) sknodes)) w
    = (Ok s', w') ->
    exists row rest,
      used <> None
      /\ get_neuron used [skeleton_id self] = Ok (row :: rest)
      /\ w' = mkWorld (ambient w)
                      (log w ++ [(INFO, "Retrieving skeleton data...")])
                      (calls w ++ [get_neuron_call used [skeleton_id self]])
      /\ s' = mk (skeleton_id self) (_remote_instance self)
                 (soma_detection_radius self) (soma_detection_tag self) (color self)
                 (Some (mkNodes (rows (sk_nodes row))
                                (Some (classify (rows (sk_nodes row)))) None))
                 (Some (sk_connectors row)) (Some (sk_tags row))
                 (Some (Some (sk_neuron_name row))) None None None
                 (review_status self) (annotations self)).
  { intros Hu Hb. unfold bind, logger, record, lift, ret in Hb. cbn in Hb.
    destruct (get_neuron used [skeleton_id self]) as [[|row rest]|e] eqn:Hget;
      cbn in Hb; try discriminate Hb.
    injection Hb as <- <-. exists row, rest.
    split; [exact Hu|]. split; [reflexivity|]. split; [reflexivity|].
    rewrite clear_with_nodes_frame.
    destruct (bool_decide (is_Some (type (sk_nodes row))));
      destruct self; reflexivity. }
  unfold get_skeleton in Hg. subst used.
  destruct ri as [r|]; [apply Hbody; [discriminate | exact Hg]|].
  destruct (_remote_instance self) as [r|] eqn:Hr;
    [apply Hbody; [discriminate | exact Hg] | discriminate Hg].
Qed.

(** X6: [get_skeleton] raises, without a call, when no session is passed and
    the neuron has none.  Otherwise it makes one [get_neuron] call, for
    this neuron's id only and with the session passed in preference to
    the neuron's own; when that succeeds, the node table, connectors,
    tags and name are those of the first row of the answer, the derived
    attributes are purged, and the id, the neuron's own session, the
    colour, the review status and the annotations are as before. *)
Theorem get_skeleton_effect (self : t) (ri : option Session) (w : World) :
  let used := match ri with Some r => Some r | None => _remote_instance self end in
  (used = None ->
   get_skeleton self ri w
   = (Raise (Exception "Get_skeleton - Unable to connect to server without remote_instance. See help(core.CatmaidNeuron) to learn how to assign."), w))
  /\ (forall s' w',
        get_skeleton self ri w = (Ok s', w') ->
        calls w' = calls w ++ [get_neuron_call used [skeleton_id self]]
        /\ purged s'
        /\ (exists row rest tbl,
              get_neuron used [skeleton_id self] = Ok (row :: rest)
              /\ nodes s' = Some tbl /\ rows tbl = rows (sk_nodes row)
              /\ connectors s' = Some (sk_connectors row)
              /\ tags s' = Some (sk_tags row)
              /\ neuron_name s' = Some (Some (sk_neuron_name row)))
        /\ skeleton_id s' = skeleton_id self
        /\ _remote_instance s' = _remote_instance self
        /\ color s' = color self
        /\ review_status s' = review_status self
        /\ annotations s' = annotations self).
Proof.
  intros used. split.
  - subst used. destruct ri as [r|]; [discriminate|].
    intros Hr. unfold get_skeleton. rewrite Hr. reflexivity.
  - intros s' w' Hg.
    destruct (get_skeleton_ok _ _ _ _ _ Hg) as (row & rest & _ & Hget & -> & ->).
    fold used in Hget |- *.
    split; [reflexivity|]. split.
    { unfold purged; cbn. repeat split. eexists. repeat split. }
    split.
    { exists row, rest, (mkNodes (rows (sk_nodes row))
                                 (Some (classify (rows (sk_nodes row)))) None).
      repeat split. exact Hget. }
    repeat split.
Qed.

(** X7: Each attribute that is filled in on demand is stored by the read
    that filled it: after a read that gave a value other than [None],
    reading the attribute again gives the same value and fetches, logs
    and changes nothing. *)
Theorem lazy_read_is_stored (self n' : t) (key : string) (v : value)
        (w w' : World) :
  In key ["nodes"; "connectors"; "tags"; "neuron_name"; "annotations";
          "review_status"; "igraph"; "slabs"; "nodes_geodesic_distance_matrix"] ->
  getattr self key w = (Ok (v, n'), w') -> v <> VNone ->
  forall w2, getattr n' key w2 = (Ok (v, n'), w2).
Proof.
  intros Hk Hread Hv w2. apply dict_hit.
  unfold getattr in Hread.
  destruct (__dict__ self key) as [v0|] eqn:Hd.
  { injection Hread as <- <- <-. exact Hd. }
  assert (Hskel : forall (A : Type) (pick : t -> option A) (what : string)
                         (wrap : A -> value) (k : string),
             (forall s, __dict__ s k = wrap <$> pick s) ->
             (s1 <- get_skeleton self None ;;
              a <- the what (pick s1) ;; ret (wrap a, s1)) w = (Ok (v, n'), w') ->
             __dict__ n' k = Some v).
  { intros A pick what wrap k Hdict Hb.
    apply bind_ok in Hb as (s1 & w1 & _ & Hb).
    apply bind_ok in Hb as (a & w3 & Ha & Hb).
    injection Hb as <- <- <-.
    rewrite Hdict. destruct (pick s1); [|discriminate Ha].
    injection Ha as <- _. reflexivity. }
  assert (Hz : forall b, b && false = false) by apply andb_false_r.
  cbn [In] in Hk.
  destruct Hk as [<-|[<-|[<-|[<-|[<-|[<-|[<-|[<-|[<-|[]]]]]]]]]];
    unfold __getattr__ in Hread;
    cbn [is_in zero_when_empty existsb String.eqb Ascii.eqb Bool.eqb orb] in Hread;
    destruct (nodes self) as [tbl|] eqn:Hn; rewrite ?Hz in Hread.
  all: try (eapply (Hskel _ nodes "nodes" VNodes "nodes");
            [intros s; reflexivity | exact Hread]).
  all: try (eapply (Hskel _ connectors "connectors" VConnectors "connectors");
            [intros s; reflexivity | exact Hread]).
  all: try (eapply (Hskel _ tags "tags" VTags "tags");
            [intros s; reflexivity | exact Hread]).
  all: try (unfold get_name, get_annotations, get_review in Hread;
            destruct (_remote_instance self);
            [| unfold bind, logger, ret in Hread; cbn in Hread;
               injection Hread as <- _ _; congruence];
            unfold bind, record, lift, ret, raise in Hread; cbn in Hread;
            match type of Hread with
            | context [match ?r with Ok _ => _ | Raise _ => _ end] =>
                destruct r as [d|e]; cbn in Hread; [|discriminate Hread]
            end;
            match type of Hread with
            | context [match ?o with _ => _ end] =>
                destruct o; cbn in Hread; try discriminate Hread
            end;
            repeat match type of Hread with
                   | context [let (_, _) := ?p in _] => destruct p
                   end;
            injection Hread as <- <- _; destruct self; reflexivity).
  all: unfold get_igraph, _get_slabs, self_igraph, get_igraph, bind, logger, ret
         in Hread; cbn in Hread.
  all: try (injection Hread as <- <- _; destruct self; reflexivity).
  all: destruct (igraph self); cbn in Hread;
    injection Hread as <- <- _; destruct self; reflexivity.
Qed.

(** X8: [_clear_temp_attr] on a neuron that holds its node table fetches and
    logs nothing; it leaves the rows of the table, classified anew, and
    every attribute other than the derived ones as they were; and running
    it again changes nothing.  On a neuron without node table and without
    session it raises, because reading the node table asks for the
    skeleton. *)
Theorem clear_temp_attr_settles (self : t) (w : World) :
  (forall tbl, nodes self = Some tbl ->
     exists s',
       _clear_temp_attr self w = (Ok s', w)
       /\ (forall w2, _clear_temp_attr s' w2 = (Ok s', w2))
       /\ nodes s' = Some (mkNodes (rows tbl) (Some (classify (rows tbl))) None)
       /\ skeleton_id s' = skeleton_id self
       /\ _remote_instance s' = _remote_instance self
       /\ color s' = color self
       /\ connectors s' = connectors self /\ tags s' = tags self
       /\ neuron_name s' = neuron_name self
       /\ review_status s' = review_status self
       /\ annotations s' = annotations self)
  /\ (nodes self = None -> _remote_instance self = None ->
      _clear_temp_attr self w
      = (Raise (Exception "Get_skeleton - Unable to connect to server without remote_instance. See help(core.CatmaidNeuron) to learn how to assign."), w)).
Proof.
  split.
  - intros tbl Hn.
    destruct self as [sk ri rad tag col no cn tg nm ig sl mx rv an].
    cbn in Hn. subst no.
    exists (mk sk ri rad tag col
               (Some (mkNodes (rows tbl) (Some (classify (rows tbl))) None))
               cn tg nm None None None rv an).
    split; [destruct tbl as [rs [ty|] [fc|]]; reflexivity|].
    split; [intros w2; reflexivity|].
    repeat split.
  - intros Hn Hr.
    destruct self as [sk ri rad tag col no cn tg nm ig sl mx rv an].
    cbn in Hn, Hr. subst no ri. reflexivity.
Qed.

(** X9: A copy of a neuron that holds its skeleton and its name is made
    without a call or a log record.  The copy has the id, session,
    soma-detection settings, colour, node rows, connectors, tags, name,
    graph and slabs of the original; the distance matrix, the review
    status and the annotations are not carried over.  The original is
    left as it was, except that its node table is classified if it was
    not. *)
Theorem copy_keeps_and_drops (self : t) (tbl : NodeTable)
        (c : list ConnectorRow) (tg : Tags) (nm : option string) (w : World) :
  nodes self = Some tbl -> connectors self = Some c ->
  tags self = Some tg -> neuron_name self = Some nm ->
  exists cp tbl',
    copy self w = (Ok (cp, set_nodes (Some tbl') self), w)
    /\ rows tbl' = rows tbl
    /\ (type tbl <> None -> tbl' = tbl)
    /\ nodes cp = Some tbl'
    /\ skeleton_id cp = skeleton_id self
    /\ _remote_instance cp = _remote_instance self
    /\ soma_detection_radius cp = soma_detection_radius self
    /\ soma_detection_tag cp = soma_detection_tag self
    /\ color cp = color self
    /\ connectors cp = Some c /\ tags cp = Some tg /\ neuron_name cp = Some nm
    /\ igraph cp = igraph self /\ slabs cp = slabs self
    /\ nodes_geodesic_distance_matrix cp = None
    /\ review_status cp = None /\ annotations cp = None.
Proof.
  intros Hn Hc Ht Hm.
  destruct self as [sk ri rad tag col no cn tgo nmo ig sl mx rv an].
  cbn in Hn, Hc, Ht, Hm. subst no cn tgo nmo.
  destruct tbl as [rs ty fc].
  exists (mk sk ri rad tag col
             (Some (if has_column "type" (mkNodes rs ty fc) then mkNodes rs ty fc
                    else classify_nodes (mkNodes rs ty fc)))
             (Some c) (Some tg) (Some nm) ig sl None None None),
         (if has_column "type" (mkNodes rs ty fc) then mkNodes rs ty fc
          else classify_nodes (mkNodes rs ty fc)).
  split.
  { unfold copy, __init__, init_from_neuron, self_nodes, self_connectors,
      self_tags, try_except, getattr, get_ambient, bind, ret.
    cbn. destruct nm, ig, sl; reflexivity. }
  split; [destruct ty; reflexivity|].
  split; [destruct ty; intros Hty; [reflexivity | now contradict Hty]|].
  repeat split.
Qed.

(** X10: [reload] called without a session on a neuron that has none logs an
    error and goes on all the same: it asks [get_neuron] for the
    neuron's id with no session.  Whatever comes of that, this one log
    record and this one call are all it adds. *)
Theorem reload_without_session (self : t) (w : World) :
  _remote_instance self = None ->
  log (snd (reload self None w))
  = log w ++ [(ERROR, "Get_update: Unable to connect to server. Please provide CatmaidInstance as <remote_instance>.")]
  /\ calls (snd (reload self None w))
     = calls w ++ [get_neuron_call None [skeleton_id self]].
Proof.
  intros Hr.
  destruct self as [sk ri rad tag col no cn tgo nmo ig sl mx rv an].
  cbn in Hr. subst ri.
  unfold reload, fetch_neuron, bind, logger, record, lift, ret. cbn.
  destruct (get_neuron None [sk]) as [[|row [|row2 rest]]|e]; cbn;
    split; reflexivity.
Qed.

(** X11: An SWC file in which every line is empty or a comment gives a neuron
    without nodes, built without a call or a log record: its [n_nodes]
    and its [cable_length] read 0, its [soma] is [None] and a read of
    its [root] raises [IndexError].  The id is the decimal numeral of
    [neuron_id], or of the random draw when no id or the id 0 is given;
    the name is [neuron_name], or the file name when no name or the
    empty name is given. *)
Theorem from_swc_without_rows (filename : string) (file : list string)
        (neuron_name : option string) (neuron_id : option Z) (drawn : Z)
        (w : World) :
  Forall (fun line => kept (csv_row line) = false) file ->
  let skid :=
    str (match neuron_id with
         | Some i => if Z.eqb i 0 then drawn else i
         | None => drawn
         end) in
  let name :=
    match neuron_name with
    | Some s => if String.eqb s "" then filename else s
    | None => filename
    end in
  let n := imported w skid name [] in
  from_swc filename file neuron_name neuron_id drawn w = (Ok n, w)
  /\ (forall w1, getattr n "n_nodes" w1 = (Ok (VInt 0, n), w1))
  /\ (forall w1, getattr n "cable_length" w1 = (Ok (VInt 0, n), w1))
  /\ (forall w1, getattr n "soma" w1 = (Ok (VNone, n), w1))
  /\ (forall w1, getattr n "root" w1 = (Raise IndexError, w1)).
Proof.
  intros Hfile skid name n.
  assert (Hrows : read_rows file = []).
  { rewrite SwcFacts.read_rows_filter.
    induction Hfile as [|line rest Hl _ IH]; [reflexivity|].
    cbn [map List.filter]. now rewrite Hl. }
  split.
  - unfold from_swc. rewrite Hrows. subst n skid name.
    destruct neuron_name as [s|]; [destruct (String.eqb s "") eqn:Es|];
      unfold truthy; rewrite ?Es; reflexivity.
  - repeat split; intros w1; reflexivity.
Qed.

End WithCollaborators.

Import StandIn.

Lemma root_is_first_parentless_witness :
  (Forall (fun r => isnull (parent_id r) = false)
          [node 1 0 1000; node 2 1 900; node 3 2 10]
   /\ getattr two_somas "root" world0 = (Raise IndexError, world0))
  \/ (exists pre r post,
        [node 1 0 1000; node 2 1 900; node 3 2 10] = pre ++ r :: post
        /\ Forall (fun r' => isnull (parent_id r') = false) pre
        /\ isnull (parent_id r) = true
        /\ getattr two_somas "root" world0
           = (Ok (VNum (treenode_id r), two_somas), world0)).
Proof.
  exact (root_is_first_parentless two_somas
           (mkNodes [node 1 0 1000; node 2 1 900; node 3 2 10] None None)
           world0 eq_refl).
Defined.

Lemma counts_never_fetch_witness :
  getattr unfetched8 "n_nodes" world0 = (Ok (NA, unfetched8), world0).
Proof.
  apply counts_never_fetch; [reflexivity | reflexivity | simpl; tauto].
Defined.

Lemma get_skeleton_effect_witness :
  exists s' w',
    get_skeleton unfetched8 None world0 = (Ok s', w')
    /\ calls w' = [get_neuron_call (Some session) ["8"]]
    /\ purged s'.
Proof.
  let r := eval vm_compute in (get_skeleton unfetched8 None world0) in
  match r with
  | (Ok ?s, ?w1) =>
      exists s, w1;
      assert (Hg : get_skeleton unfetched8 None world0 = (Ok s, w1))
        by reflexivity
  end.
  split; [exact Hg|].
  destruct (proj2 (get_skeleton_effect unfetched8 None world0) _ _ Hg)
    as (Hcalls & Hp & _).
  split; [exact Hcalls | exact Hp].
Defined.

Lemma lazy_read_is_stored_witness :
  exists v n' w',
    getattr unfetched8 "tags" world0 = (Ok (v, n'), w')
    /\ getattr n' "tags" world0 = (Ok (v, n'), world0).
Proof.
  let r := eval vm_compute in (getattr unfetched8 "tags" world0) in
  match r with
  | (Ok (?v, ?s), ?w1) =>
      exists v, s, w1;
      assert (Hg : getattr unfetched8 "tags" world0 = (Ok (v, s), w1))
        by reflexivity
  end.
  split; [exact Hg|].
  refine (lazy_read_is_stored _ _ _ _ _ _ _ Hg _ world0);
    [simpl; tauto | discriminate].
Defined.

Lemma clear_temp_attr_settles_witness :
  exists s', _clear_temp_attr loaded world0 = (Ok s', world0)
             /\ _clear_temp_attr s' world0 = (Ok s', world0).
Proof.
  destruct (proj1 (clear_temp_attr_settles loaded world0) _ eq_refl)
    as (s' & H1 & H2 & _).
  exists s'. split; [exact H1 | exact (H2 world0)].
Defined.

Lemma copy_keeps_and_drops_witness :
  exists cp, fst (copy loaded world0) = Ok (cp, loaded)
             /\ igraph cp = igraph loaded /\ nodes_geodesic_distance_matrix cp = None.
Proof.
  destruct (copy_keeps_and_drops loaded _ _ _ _ world0 eq_refl eq_refl eq_refl eq_refl)
    as (cp & tbl' & Hcopy & _ & Hsame & _ & _ & _ & _ & _ & _ & _ & _ & _ & Hig & _ & Hmx & _).
  exists cp. rewrite Hcopy. cbn [fst].
  rewrite (Hsame ltac:(discriminate)).
  split; [reflexivity|]. split; [exact Hig | exact Hmx].
Defined.

Lemma reload_without_session_witness :
  calls (snd (reload (bare "7") None world0)) = [get_neuron_call None ["7"]].
Proof.
  exact (proj2 (reload_without_session (bare "7") world0 eq_refl)).
Defined.

Lemma from_swc_without_rows_witness :
  from_swc "empty.swc" ["# no nodes"; ""] (Some "") (Some 0) 123456 world0
  = (Ok (imported world0 "123456" "empty.swc" []), world0).
Proof.
  apply (from_swc_without_rows "empty.swc" ["# no nodes"; ""] (Some "") (Some 0)
           123456 world0).
  repeat constructor.
Defined.

End NeuronMoreFacts.

(** ** CatmaidNeuronList: sessions, reloads, lookups and filters *)

Module ListMoreFacts.
Import Py Data Collaborators Spec Examples NeuronFacts NeuronMoreFacts.
Import CatmaidNeuronList.

Lemma session_eqb_eq (a b : Session) : session_eqb a b = true <-> a = b.
Proof.
  destruct a as [u], b as [v]. cbn. rewrite String.eqb_eq.
  split; [now intros -> | now intros [= ->]].
Qed.

Lemma existsb_session (a : Session) (l : list Session) :
  existsb (session_eqb a) l = true <-> In a l.
Proof.
  rewrite existsb_exists. split.
  - intros (b & Hb & E). apply session_eqb_eq in E. now subst.
  - intros Ha. exists a. split; [exact Ha | now apply session_eqb_eq].
Qed.

Lemma dedup_sessions_in (l : list Session) (a : Session) :
  In a (dedup_sessions l) <-> In a l.
Proof.
  induction l as [|b l IH]; cbn [dedup_sessions]; [reflexivity|].
  destruct (existsb (session_eqb b) l) eqn:E.
  - rewrite IH. split; [now right|]. intros [<-|Ha]; [|exact Ha].
    now apply existsb_session.
  - cbn [In]. now rewrite IH.
Qed.

Lemma dedup_sessions_nodup (l : list Session) : List.NoDup (dedup_sessions l).
Proof.
  induction l as [|b l IH]; cbn [dedup_sessions]; [constructor|].
  destruct (existsb (session_eqb b) l) eqn:E; [exact IH|].
  constructor; [|exact IH].
  rewrite dedup_sessions_in. intros Hb. apply existsb_session in Hb. congruence.
Qed.

(** The number of different sessions in a list is 0 for the empty list,
    1 when all entries are the same, and more when two entries differ. *)
Lemma dedup_sessions_count (l : list Session) :
  match l with
  | [] => length (dedup_sessions l) = 0%nat
  | a :: _ =>
      (Forall (fun b => b = a) l -> length (dedup_sessions l) = 1%nat)
      /\ ((exists b, In b l /\ b <> a) -> (1 < length (dedup_sessions l))%nat)
  end.
Proof.
  destruct l as [|a l]; [reflexivity|].
  pose proof (dedup_sessions_nodup (a :: l)) as Hnd.
  pose proof (dedup_sessions_in (a :: l)) as Hin.
  split.
  - intros Hall.
    destruct (dedup_sessions (a :: l)) as [|c [|d rest]] eqn:E.
    + exfalso. apply (proj2 (Hin a)). now left.
    + reflexivity.
    + exfalso.
      assert (Hc : c = a).
      { apply (proj1 (List.Forall_forall _ _) Hall). apply Hin. now left. }
      assert (Hd : d = a).
      { apply (proj1 (List.Forall_forall _ _) Hall). apply Hin. right. now left. }
      subst. inversion Hnd as [|? ? Hnot _]. apply Hnot. now left.
  - intros (b & Hb & Hne).
    destruct (dedup_sessions (a :: l)) as [|c [|d rest]] eqn:E.
    + exfalso. apply (proj2 (Hin a)). now left.
    + exfalso.
      assert (Ha : In a [c]) by (apply Hin; now left).
      assert (Hb' : In b [c]) by (apply Hin; exact Hb).
      destruct Ha as [<-|[]], Hb' as [<-|[]]. now apply Hne.
    + cbn. lia.
Qed.

Section WithCollaborators.
Context `{Remote} `{Classifier} `{CatmaidNeuron.Morpho}.

(** X12: Reading [_remote_instance] off a list.  When no neuron has a session
    (so for the empty list) the read raises.  When the neurons that have
    one all have the same, it gives that session.  When two neurons have
    different sessions, it logs at DEBUG that it returns the first entry
    and gives [None].  No case makes a call. *)
Theorem list_session_cases (self : t) (w : World) :
  let sessions := omap CatmaidNeuron._remote_instance (neurons self) in
  match sessions with
  | [] =>
      _remote_instance self w
      = (Raise (Exception "No remote_instance found. Use .set_remote_instance() to assign one to all neurons."), w)
  | r :: _ =>
      (Forall (fun s => s = r) sessions ->
       _remote_instance self w = (Ok (Some r), w))
      /\ ((exists s, In s sessions /\ s <> r) ->
          _remote_instance self w
          = (Ok None,
             logged w DEBUG "Neurons are using multiple remote_instances! Returning first entry."))
  end.
Proof.
  intros sessions. unfold _remote_instance. fold sessions.
  pose proof (dedup_sessions_count sessions) as Hc.
  destruct sessions as [|r rest].
  - rewrite Hc. reflexivity.
  - destruct Hc as [Hsame Hdiff]. split.
    + intros Hall. rewrite (Hsame Hall). reflexivity.
    + intros Hex. specialize (Hdiff Hex).
      apply Nat.ltb_lt in Hdiff. rewrite Hdiff. reflexivity.
Qed.

Lemma omap_assigned (r : Session) (l : list CatmaidNeuron.t) :
  omap CatmaidNeuron._remote_instance
       (map (CatmaidNeuron.set_remote_instance (Some r)) l)
  = map (fun _ => r) l.
Proof.
  induction l as [|n l IH]; [reflexivity|].
  cbn [map omap list_omap]. destruct n; cbn. f_equal. exact IH.
Qed.

(** X13: [set_remote_instance] on a list raises, leaving the list alone,
    exactly when no session is passed and the URL or the token is
    missing or empty.  Otherwise every neuron gets the same session (the
    one passed, in preference to the credentials) and is otherwise
    unchanged, and on a list with neurons a read of [_remote_instance]
    then gives that session without a log record.  On a single neuron the
    method does what the list method does to a list of that neuron. *)
Theorem set_remote_instance_then_read (self : t) (ri : option Session)
        (url user pw token : option string) :
  let given :=
    match ri with
    | Some r => Some r
    | None =>
        if truthy url && truthy token
        then Some (CatmaidInstance (default "" url)) else None
    end in
  match given with
  | None =>
      ListSession.set_remote_instance self ri url user pw token
      = Raise (Exception "Provide either CatmaidInstance or credentials.")
  | Some r =>
      exists self',
        ListSession.set_remote_instance self ri url user pw token = Ok self'
        /\ neurons self'
           = map (CatmaidNeuron.set_remote_instance (Some r)) (neurons self)
        /\ copy_on_subset self' = copy_on_subset self
        /\ (neurons self <> [] ->
            forall w, _remote_instance self' w = (Ok (Some r), w))
  end
  /\ forall n,
       match NeuronSession.set_remote_instance n ri url user pw token,
             ListSession.set_remote_instance (mk [n] false) ri url user pw token with
       | Ok n', Ok l' => neurons l' = [n']
       | Raise e, Raise e' => e = e'
       | _, _ => False
       end.
Proof.
  intros given. split.
  - assert (Hread : forall r,
               neurons self <> [] ->
               forall w,
                 _remote_instance
                   (set_neurons (map (CatmaidNeuron.set_remote_instance (Some r))
                                     (neurons self)) self) w
                 = (Ok (Some r), w)).
    { intros r Hne w.
      pose proof (list_session_cases
                    (set_neurons (map (CatmaidNeuron.set_remote_instance (Some r))
                                      (neurons self)) self) w) as Hc.
      cbv zeta in Hc. cbn [neurons set_neurons] in Hc.
      rewrite omap_assigned in Hc.
      destruct (neurons self) as [|n l]; [congruence|].
      cbn [map] in Hc. apply (proj1 Hc).
      constructor; [reflexivity|].
      clear. induction l; constructor; auto. }
    subst given. unfold ListSession.set_remote_instance.
    destruct ri as [r|].
    + eexists. split; [reflexivity|]. split; [reflexivity|].
      split; [reflexivity | apply Hread].
    + destruct (truthy url && truthy token).
      * eexists. split; [reflexivity|]. split; [reflexivity|].
        split; [reflexivity | apply Hread].
      * reflexivity.
  - intros n. unfold NeuronSession.set_remote_instance,
      ListSession.set_remote_instance.
    destruct ri as [r|]; [reflexivity|].
    destruct (truthy url && truthy token); reflexivity.
Qed.

Lemma fill_in_ok (skdata : list Skeleton) (n n' : CatmaidNeuron.t)
      (w w' : World) :
  fill_in skdata n w = (Ok n', w') ->
  w' = w
  /\ exists row,
       loc skdata (CatmaidNeuron.skeleton_id n) = Ok row
       /\ n' = CatmaidNeuron.mk
                 (CatmaidNeuron.skeleton_id n) (CatmaidNeuron._remote_instance n)
                 (CatmaidNeuron.soma_detection_radius n)
                 (CatmaidNeuron.soma_detection_tag n) (CatmaidNeuron.color n)
                 (Some (mkNodes (rows (sk_nodes row))
                                (Some (classify (rows (sk_nodes row)))) None))
                 (Some (sk_connectors row)) (Some (sk_tags row))
                 (Some (Some (sk_neuron_name row))) None None None
                 (CatmaidNeuron.review_status n) (CatmaidNeuron.annotations n).
Proof.
  unfold fill_in. intros Hf.
  apply bind_ok in Hf as (row & w1 & Hrow & Hf).
  unfold lift in Hrow. injection Hrow as Hrow <-.
  unfold CatmaidNeuron._clear_temp_attr in Hf.
  apply bind_ok in Hf as (p & w2 & Hp & Hf).
  injection Hf as <- <-.
  unfold CatmaidNeuron.self_nodes in Hp.
  destruct n; cbn in Hp. injection Hp as <- <-.
  split; [reflexivity|]. exists row. split; [exact Hrow|].
  cbn [fst snd]. rewrite clear_with_nodes_frame.
  destruct (bool_decide (is_Some (type (sk_nodes row)))); reflexivity.
Qed.

Lemma fill_all (skdata : list Skeleton) (l : list CatmaidNeuron.t) :
  forall res w w',
    mapM (fun n => if true then fill_in skdata n else ret n) l w = (Ok res, w') ->
    w' = w
    /\ Forall2 (fun n n' =>
                  exists row,
                    loc skdata (CatmaidNeuron.skeleton_id n) = Ok row
                    /\ CatmaidNeuron.nodes n'
                       = Some (mkNodes (rows (sk_nodes row))
                                       (Some (classify (rows (sk_nodes row)))) None)
                    /\ CatmaidNeuron.connectors n' = Some (sk_connectors row)
                    /\ CatmaidNeuron.tags n' = Some (sk_tags row)
                    /\ CatmaidNeuron.neuron_name n' = Some (Some (sk_neuron_name row))
                    /\ CatmaidNeuron.purged n'
                    /\ CatmaidNeuron.skeleton_id n' = CatmaidNeuron.skeleton_id n
                    /\ CatmaidNeuron._remote_instance n'
                       = CatmaidNeuron._remote_instance n
                    /\ CatmaidNeuron.color n' = CatmaidNeuron.color n
                    /\ CatmaidNeuron.review_status n' = CatmaidNeuron.review_status n
                    /\ CatmaidNeuron.annotations n' = CatmaidNeuron.annotations n)
               l res.
Proof.
  induction l as [|n l IH]; intros res w w' Hm; cbn [mapM] in Hm.
  - injection Hm as <- <-. split; constructor.
  - apply bind_ok in Hm as (n' & w1 & Hn' & Hm).
    apply bind_ok in Hm as (rest & w2 & Hrest & Hm).
    injection Hm as <- <-.
    destruct (IH _ _ _ Hrest) as (-> & Hf).
    destruct (fill_in_ok _ _ _ _ _ Hn') as (-> & row & Hrow & ->).
    split; [reflexivity|]. constructor; [|exact Hf].
    exists row. split; [exact Hrow|]. cbn.
    repeat split. eexists. repeat split.
Qed.

(** X14: [reload] on a list with neurons makes one [get_neuron] call for the
    ids of all its neurons, in list order, whether or not their
    skeletons are stored.  When it succeeds every neuron holds the node
    rows, connectors, tags and name of the row the answer has under its
    id, with the derived attributes purged, and keeps its id, session,
    colour, review status and annotations.  On the empty list it does
    nothing at all. *)
Theorem reload_fetches_all (self : t) (w : World) :
  (neurons self = [] -> reload self w = (Ok self, w))
  /\ forall self' w',
       neurons self <> [] ->
       reload self w = (Ok self', w') ->
       exists ri skdata,
         fst (_remote_instance self w) = Ok ri
         /\ get_neuron ri (skeleton_id self) = Ok skdata
         /\ calls w' = calls w ++ [get_neuron_call ri (skeleton_id self)]
         /\ copy_on_subset self' = copy_on_subset self
         /\ Forall2 (fun n n' =>
                  exists row,
                    loc skdata (CatmaidNeuron.skeleton_id n) = Ok row
                    /\ CatmaidNeuron.nodes n'
                       = Some (mkNodes (rows (sk_nodes row))
                                       (Some (classify (rows (sk_nodes row)))) None)
                    /\ CatmaidNeuron.connectors n' = Some (sk_connectors row)
                    /\ CatmaidNeuron.tags n' = Some (sk_tags row)
                    /\ CatmaidNeuron.neuron_name n' = Some (Some (sk_neuron_name row))
                    /\ CatmaidNeuron.purged n'
                    /\ CatmaidNeuron.skeleton_id n' = CatmaidNeuron.skeleton_id n
                    /\ CatmaidNeuron._remote_instance n'
                       = CatmaidNeuron._remote_instance n
                    /\ CatmaidNeuron.color n' = CatmaidNeuron.color n
                    /\ CatmaidNeuron.review_status n' = CatmaidNeuron.review_status n
                    /\ CatmaidNeuron.annotations n' = CatmaidNeuron.annotations n)
               (neurons self) (neurons self').
Proof.
  assert (Hall : List.filter (fun _ : CatmaidNeuron.t => true) (neurons self)
                 = neurons self).
  { induction (neurons self) as [|n l IH]; [reflexivity|]. cbn. now rewrite IH. }
  unfold reload, get_skeletons. rewrite Hall. split.
  - intros ->. reflexivity.
  - intros self' w' Hne Hg.
    destruct (neurons self) as [|n0 l0] eqn:En; [congruence|].
    rewrite <- En in *.
    apply bind_ok in Hg as (ri & w1 & Hri & Hg).
    apply bind_ok in Hg as ([] & w2 & Hrec & Hg).
    apply bind_ok in Hg as (skdata & w3 & Hsk & Hg).
    apply bind_ok in Hg as (l & w4 & Hl & Hg).
    injection Hg as <- <-.
    pose proof (ListFacts.remote_instance_calls _ _ _ _ Hri) as Hcalls.
    injection Hrec as <-. unfold lift in Hsk. injection Hsk as Hsk <-.
    destruct (fill_all skdata (neurons self) _ _ _ Hl) as (-> & Hf).
    exists ri, skdata. rewrite Hri. cbn. unfold skeleton_id.
    split; [reflexivity|]. split; [exact Hsk|].
    split; [now rewrite Hcalls|]. split; [reflexivity | exact Hf].
Qed.

(** X16: The skeleton-id indexer gives the first neuron whose id is the
    decimal numeral of the key; it raises [ValueError] exactly when no
    neuron has that id, and never another error. *)
Theorem skid_lookup_first (obj : list CatmaidNeuron.t) (skid : Z) :
  match skid_getitem obj skid with
  | Ok n =>
      exists pre post,
        obj = pre ++ n :: post
        /\ CatmaidNeuron.skeleton_id n = str skid
        /\ Forall (fun m => CatmaidNeuron.skeleton_id m <> str skid) pre
  | Raise e =>
      e = ValueError ("No neuron with skeleton ID " ++ str skid)
      /\ Forall (fun m => CatmaidNeuron.skeleton_id m <> str skid) obj
  end.
Proof.
  unfold skid_getitem.
  induction obj as [|m obj IH]; cbn [skid_position].
  - split; [reflexivity | constructor].
  - destruct (String.eqb (CatmaidNeuron.skeleton_id m) (str skid)) eqn:E.
    + cbn. exists [], obj. apply String.eqb_eq in E.
      repeat split; [exact E | constructor].
    + apply String.eqb_neq in E.
      destruct (skid_position obj skid) as [i|]; cbn [fmap option_fmap option_map].
      * change ((m :: obj) !! S i) with (obj !! i).
        destruct (obj !! i) as [n|].
        -- destruct IH as (pre & post & -> & Hid & Hpre).
           exists (m :: pre), post. repeat split; [exact Hid|].
           constructor; assumption.
        -- destruct IH as [IH _]. discriminate IH.
      * destruct IH as [_ IH]. split; [reflexivity|].
        constructor; assumption.
Qed.

(** X15: [get_annotations] with [skip_existing] makes no call and changes
    nothing when every neuron holds annotations.  Otherwise it makes one
    call, for exactly the ids of the neurons without annotations in list
    order, and every neuron whose id the answer holds gets the
    annotations of the answer, while every other neuron is left as it
    was. *)
Theorem get_annotations_asks_missing (self : t) (w : World) :
  let missing :=
    map CatmaidNeuron.skeleton_id
        (List.filter (fun n => lacks_annotations n) (neurons self)) in
  (missing = [] -> get_annotations self true w = (Ok self, w))
  /\ forall self' w',
       missing <> [] ->
       get_annotations self true w = (Ok self', w') ->
       exists ri answer,
         fst (_remote_instance self w) = Ok ri
         /\ Collaborators.get_annotations ri missing = Ok answer
         /\ calls w' = calls w ++ [get_annotations_call ri missing]
         /\ copy_on_subset self' = copy_on_subset self
         /\ Forall2 (fun n n' =>
                       match answer !! CatmaidNeuron.skeleton_id n with
                       | Some an => n' = CatmaidNeuron.set_annotations (Some an) n
                       | None => n' = n
                       end) (neurons self) (neurons self').
Proof.
  intros missing. unfold get_annotations. fold missing. split.
  - intros ->. reflexivity.
  - intros self' w' Hne Hg.
    destruct missing as [|m ms] eqn:Em; [congruence|].
    apply bind_ok in Hg as (ri & w1 & Hri & Hg).
    apply bind_ok in Hg as ([] & w2 & Hrec & Hg).
    apply bind_ok in Hg as (answer & w3 & Hans & Hg).
    injection Hg as <- <-.
    pose proof (ListFacts.remote_instance_calls _ _ _ _ Hri) as Hcalls.
    injection Hrec as <-. unfold lift in Hans. injection Hans as Hans <-.
    exists ri, answer. rewrite Hri. cbn.
    split; [reflexivity|]. split; [exact Hans|].
    split; [now rewrite Hcalls|]. split; [reflexivity|].
    clear. induction (neurons self) as [|n l IH]; cbn [map]; constructor;
      [|exact IH].
    now destruct (answer !! CatmaidNeuron.skeleton_id n).
Qed.

End WithCollaborators.

Import StandIn.

Lemma list_session_cases_witness :
  _remote_instance
    (mk [CatmaidNeuron.set_remote_instance (Some (CatmaidInstance "https://other.example"))
           (bare "1"); bare "2"; unfetched8] false) world0
  = (Ok None,
     logged world0 DEBUG "Neurons are using multiple remote_instances! Returning first entry.").
Proof.
  apply (list_session_cases
           (mk [CatmaidNeuron.set_remote_instance
                  (Some (CatmaidInstance "https://other.example")) (bare "1");
                bare "2"; unfetched8] false) world0).
  exists session. split; [simpl; tauto | discriminate].
Defined.

Lemma set_remote_instance_then_read_witness :
  exists self',
    ListSession.set_remote_instance twins None (Some "https://catmaid.example")
      None None (Some "token") = Ok self'
    /\ _remote_instance self' world0 = (Ok (Some session), world0).
Proof.
  destruct (proj1 (set_remote_instance_then_read twins None
                     (Some "https://catmaid.example") None None (Some "token")))
    as (self' & Hset & _ & _ & Hread).
  exists self'. split; [exact Hset|].
  apply Hread. discriminate.
Defined.

Lemma reload_fetches_all_witness :
  exists self' w',
    reload two_neurons world0 = (Ok self', w')
    /\ calls w' = [get_neuron_call (Some session) ["7"; "8"]].
Proof.
  let r := eval vm_compute in (reload two_neurons world0) in
  match r with
  | (Ok ?s, ?w1) =>
      exists s, w1;
      assert (Hg : reload two_neurons world0 = (Ok s, w1)) by reflexivity
  end.
  split; [exact Hg|].
  destruct (proj2 (reload_fetches_all two_neurons world0) _ _
              ltac:(discriminate) Hg)
    as (ri & skdata & Hri & _ & Hcalls & _).
  injection Hri as <-. exact Hcalls.
Defined.

Lemma get_annotations_asks_missing_witness :
  exists self' w',
    get_annotations named_pair true world0 = (Ok self', w')
    /\ calls w' = [get_annotations_call (Some session) ["1"; "2"]].
Proof.
  let r := eval vm_compute in (get_annotations named_pair true world0) in
  match r with
  | (Ok ?s, ?w1) =>
      exists s, w1;
      assert (Hg : get_annotations named_pair true world0 = (Ok s, w1))
        by reflexivity
  end.
  split; [exact Hg|].
  destruct (proj2 (get_annotations_asks_missing named_pair world0) _ _
              ltac:(discriminate) Hg)
    as (ri & answer & Hri & _ & Hcalls & _).
  injection Hri as <-. exact Hcalls.
Defined.

End ListMoreFacts.

(** ** Selections, filters, summaries and construction *)

Module SelectionFacts.
Import Py Data Collaborators Spec Examples NeuronFacts NeuronMoreFacts.
Import CatmaidNeuronList.

Section WithCollaborators.
Context `{Remote} `{Classifier} `{CatmaidNeuron.Morpho}.

(** [add_colors] changes nothing but colours. *)
Lemma add_colors_shape (data : list entry) :
  forall l l',
    add_colors data l = Ok l' ->
    Forall2 (fun n n' => exists c, n' = CatmaidNeuron.set_color c n) l l'.
Proof.
  assert (Hrefl : forall l : list CatmaidNeuron.t,
             Forall2 (fun n n' => exists c, n' = CatmaidNeuron.set_color c n) l l).
  { induction l as [|n l IH]; constructor; [|exact IH].
    exists (CatmaidNeuron.color n). now destruct n. }
  assert (Halter : forall c i (l : list CatmaidNeuron.t),
             Forall2 (fun n n' => exists c, n' = CatmaidNeuron.set_color c n)
                     l (alter (CatmaidNeuron.set_color c) i l)).
  { intros c i l. revert i.
    induction l as [|n l IH]; intros [|i]; cbn.
    - constructor.
    - constructor.
    - constructor; [now exists c | apply Hrefl].
    - constructor; [|apply IH].
      exists (CatmaidNeuron.color n). now destruct n. }
  induction data as [|e data IH]; intros l l'; cbn [add_colors].
  - intros [= <-]. apply Hrefl.
  - destruct (parse_color (e_color e)) as [c|]; [|discriminate].
    destruct (skid_position l (e_skeleton_id e)) as [i|]; [|discriminate].
    intros Hrest. apply IH in Hrest.
    pose proof (Halter c i l) as Hstep.
    clear - Hstep Hrest.
    revert l' Hrest.
    induction Hstep as [|n m l ml (c1 & ->) _ IHs]; intros l' Hrest;
      inversion Hrest as [|? n' ? l'' (c2 & ->) Htail]; subst; constructor.
    + exists c2. now destruct n.
    + now apply IHs.
Qed.

(** X17: Loading a selection reaches no server and logs nothing, whatever the
    records are.  When it succeeds the list has one neuron per record,
    in the order of the records: the neuron [CatmaidNeuron(id)] builds,
    without skeleton or name and with the ambient session, under some
    colour. *)
Theorem from_json_is_local (data : list entry) (w : World) :
  snd (from_json data w) = w
  /\ forall nl w',
       from_json data w = (Ok nl, w') ->
       copy_on_subset nl = false
       /\ Forall2 (fun e n =>
                     exists c,
                       n = CatmaidNeuron.set_color c
                             (fresh (ambient w) (e_skeleton_id e)))
                  data (neurons nl).
Proof.
  assert (Hrun : from_json data w
                 = match add_colors data (map (fresh (ambient w))
                                              (map e_skeleton_id data)) with
                   | Ok l => (Ok (mk l false), w)
                   | Raise e => (Raise e, w)
                   end).
  { unfold from_json.
    assert (Hids : map (fun e => CatmaidNeuron.XInt (e_skeleton_id e)) data
                   = map CatmaidNeuron.XInt (map e_skeleton_id data))
      by now rewrite List.map_map.
    rewrite Hids, (bind_run _ _ _ _ _ (JsonFacts.new_ints _ w)).
    unfold bind, lift, ret. cbn [neurons].
    destruct (add_colors data _); reflexivity. }
  rewrite Hrun.
  destruct (add_colors data (map (fresh (ambient w)) (map e_skeleton_id data)))
    as [l|e] eqn:Ha.
  - split; [reflexivity|]. intros nl w' [= <- <-].
    split; [reflexivity|]. cbn [neurons].
    apply add_colors_shape in Ha. rewrite List.map_map in Ha.
    clear - Ha. revert l Ha.
    induction data as [|e data IH]; intros l Ha; inversion Ha; subst;
      constructor; auto.
  - split; [reflexivity|]. intros nl w' Hx. discriminate Hx.
Qed.

Lemma read_annotations_stored (l : list CatmaidNeuron.t) (w : World) :
  Forall (fun n => CatmaidNeuron.annotations n <> None) l ->
  read_all "annotations" l w
  = (Ok (map (fun n => (CatmaidNeuron.VStrs
                          (default [] (CatmaidNeuron.annotations n)), n)) l), w).
Proof.
  unfold read_all.
  induction 1 as [|n l Hn _ IH]; [reflexivity|].
  cbn [mapM map].
  assert (Hg : CatmaidNeuron.getattr n "annotations" w
               = (Ok (CatmaidNeuron.VStrs
                        (default [] (CatmaidNeuron.annotations n)), n), w)).
  { apply dict_hit. destruct n as [? ? ? ? ? ? ? ? ? ? ? ? ? [an|]]; cbn in *;
      [reflexivity | congruence]. }
  rewrite (bind_run _ _ _ _ _ Hg), (bind_run _ _ _ _ _ IH). reflexivity.
Qed.

Lemma none_lacking (l : list CatmaidNeuron.t) :
  Forall (fun n => CatmaidNeuron.annotations n <> None) l ->
  List.filter (fun n => lacks_annotations n) l = [].
Proof.
  induction 1 as [|n l Hn _ IH]; [reflexivity|].
  cbn [List.filter]. unfold lacks_annotations at 1.
  rewrite bool_decide_eq_false_2 by exact Hn. exact IH.
Qed.

Lemma select_stored (x : list string) (intersect : bool)
      (l : list CatmaidNeuron.t) :
  Annotated.select x intersect l
    (map (fun n => CatmaidNeuron.VStrs (default [] (CatmaidNeuron.annotations n))) l)
  = Ok (List.filter
          (fun n =>
             if intersect
             then forallb (fun a => CatmaidNeuron.is_in a x)
                          (default [] (CatmaidNeuron.annotations n))
             else existsb (fun a => CatmaidNeuron.is_in a x)
                          (default [] (CatmaidNeuron.annotations n))) l).
Proof.
  induction l as [|n l IH]; [reflexivity|].
  cbn [map Annotated.select Annotated.matches List.filter]. rewrite IH.
  reflexivity.
Qed.

Lemma new_shared (l : list CatmaidNeuron.t) (w : World) :
  new (map CatmaidNeuron.XNeuron l) None false w = (Ok (mk l false), w).
Proof.
  unfold new, bind at 1, get_ambient.
  assert (Hu : unpack (map CatmaidNeuron.XNeuron l) = map CatmaidNeuron.XNeuron l).
  { unfold unpack.
    assert (E1 : List.filter (fun e => negb (is_list e)) (map CatmaidNeuron.XNeuron l)
                 = map CatmaidNeuron.XNeuron l).
    { induction l as [|n l IH]; [reflexivity|]. cbn. now rewrite IH. }
    assert (E2 : concat (map (fun e => match e with
                                       | CatmaidNeuron.XList l0 =>
                                           map CatmaidNeuron.XNeuron l0
                                       | _ => []
                                       end) (map CatmaidNeuron.XNeuron l)) = []).
    { clear E1. induction l as [|n l IH]; [reflexivity|]. cbn. exact IH. }
    now rewrite E1, E2, app_nil_r. }
  rewrite Hu.
  assert (Hm : forall ri,
             mapM (fun e => match e with
                            | CatmaidNeuron.XNeuron n =>
                                if false then CatmaidNeuron.new e ri else ret n
                            | _ => CatmaidNeuron.new e ri
                            end) (map CatmaidNeuron.XNeuron l) w
             = (Ok l, w)).
  { clear Hu. intros ri. induction l as [|n l IH]; [reflexivity|].
    cbn [map mapM]. unfold bind at 1. unfold ret at 1.
    unfold bind at 1. rewrite IH. reflexivity. }
  unfold bind. rewrite Hm. reflexivity.
Qed.

Lemma is_in_In (a : string) (x : list string) :
  CatmaidNeuron.is_in a x = true <-> In a x.
Proof.
  unfold CatmaidNeuron.is_in. rewrite existsb_exists. split.
  - intros (b & Hb & E). apply String.eqb_eq in E. now subst.
  - intros Ha. exists a. split; [exact Ha | apply String.eqb_refl].
Qed.

(** X18: [has_annotation] on a list whose neurons all hold their annotations
    and which shares its neurons with its subsets: no call is made and
    the list is left as it is.  Without [intersect] a neuron is selected
    when one of its annotations is among [x]; with [intersect] it is
    selected when every one of its annotations is among [x], so a neuron
    without annotations is always selected and a neuron that has all of
    [x] and one annotation more is not.  The selected neurons come in
    list order; when there is none, [ValueError] is raised. *)
Theorem has_annotation_selects (self : t) (x : list string) (intersect : bool)
        (w : World) :
  Forall (fun n => CatmaidNeuron.annotations n <> None) (neurons self) ->
  copy_on_subset self = false ->
  exists chosen : CatmaidNeuron.t -> bool,
    (forall n an,
        CatmaidNeuron.annotations n = Some an ->
        chosen n = true
        <-> if intersect then Forall (fun a => In a x) an
            else Exists (fun a => In a x) an)
    /\ Annotated.has_annotation self x intersect w
       = match List.filter chosen (neurons self) with
         | [] =>
             (Raise (ValueError "No neurons with matching annotation(s) found"), w)
         | selection => (Ok (mk selection false, self), w)
         end.
Proof.
  intros Hall Hcopy.
  exists (fun n =>
            if intersect
            then forallb (fun a => CatmaidNeuron.is_in a x)
                         (default [] (CatmaidNeuron.annotations n))
            else existsb (fun a => CatmaidNeuron.is_in a x)
                         (default [] (CatmaidNeuron.annotations n))).
  split.
  - intros n an ->. cbn [default from_option id]. destruct intersect.
    + rewrite forallb_forall, List.Forall_forall.
      split; intros Hf a Ha; apply is_in_In; now apply Hf.
    + rewrite existsb_exists, List.Exists_exists.
      split; intros (a & Ha & E); exists a; (split; [exact Ha|]);
        now apply is_in_In.
  - assert (Hann : Annotated.annotations self w
                   = (Ok (map (fun n => CatmaidNeuron.VStrs
                                          (default [] (CatmaidNeuron.annotations n)))
                              (neurons self), self), w)).
    { unfold Annotated.annotations. rewrite (none_lacking _ Hall). cbn [map].
      unfold bind at 1. unfold ret at 1.
      rewrite (bind_run _ _ _ _ _ (read_annotations_stored _ w Hall)).
      unfold ret. rewrite !List.map_map. cbn [fst snd].
      rewrite List.map_id. destruct self; reflexivity. }
    unfold Annotated.has_annotation.
    rewrite (bind_run _ _ _ _ _ Hann). cbn [fst snd].
    rewrite select_stored. unfold lift at 1. unfold bind at 1.
    destruct (List.filter _ (neurons self)) as [|n rest]; [reflexivity|].
    rewrite Hcopy, (bind_run _ _ _ _ _ (new_shared (n :: rest) w)).
    reflexivity.
Qed.

End WithCollaborators.

Import StandIn.

Lemma from_json_is_local_witness :
  exists nl,
    from_json [mkEntry 16 "#ff0010" 1; mkEntry 21999 "#008007" 1] world0
    = (Ok nl, world0)
    /\ map CatmaidNeuron.skeleton_id (neurons nl) = ["16"; "21999"].
Proof.
  let r := eval vm_compute in
             (from_json [mkEntry 16 "#ff0010" 1; mkEntry 21999 "#008007" 1] world0) in
  match r with
  | (Ok ?s, ?w1) =>
      exists s;
      assert (Hg : from_json [mkEntry 16 "#ff0010" 1; mkEntry 21999 "#008007" 1]
                             world0 = (Ok s, world0)) by reflexivity
  end.
  split; [exact Hg|].
  destruct (proj2 (from_json_is_local _ world0) _ _ Hg) as (_ & Hshape).
  inversion Hshape as [|e1 n1 d1 l1 (c1 & E1) Hrest]; subst.
  inversion Hrest as [|e2 n2 d2 l2 (c2 & E2) Hnil]; subst.
  inversion Hnil; subst.
  rewrite E1, E2. reflexivity.
Defined.

Lemma has_annotation_selects_witness :
  exists chosen : CatmaidNeuron.t -> bool,
    Annotated.has_annotation
      (mk [CatmaidNeuron.set_annotations (Some ["glomerulus DA1"; "right"]) (bare "1");
           CatmaidNeuron.set_annotations (Some []) (bare "2")] false)
      ["right"] true world0
    = match List.filter chosen
              [CatmaidNeuron.set_annotations (Some ["glomerulus DA1"; "right"]) (bare "1");
               CatmaidNeuron.set_annotations (Some []) (bare "2")] with
      | [] => (Raise (ValueError "No neurons with matching annotation(s) found"), world0)
      | selection =>
          (Ok (mk selection false,
               mk [CatmaidNeuron.set_annotations (Some ["glomerulus DA1"; "right"]) (bare "1");
                   CatmaidNeuron.set_annotations (Some []) (bare "2")] false), world0)
      end.
Proof.
  destruct (has_annotation_selects
              (mk [CatmaidNeuron.set_annotations (Some ["glomerulus DA1"; "right"]) (bare "1");
                   CatmaidNeuron.set_annotations (Some []) (bare "2")] false)
              ["right"] true world0)
    as (chosen & _ & Hsel).
  - repeat constructor; discriminate.
  - reflexivity.
  - exists chosen. exact Hsel.
Defined.

End SelectionFacts.

(** ** The summary and the constructor of a neuron *)

Module SummaryFacts.
Import Py Data Collaborators CatmaidNeuron Spec Examples NeuronFacts NeuronMoreFacts.

Section WithCollaborators.
Context `{Remote} `{Classifier} `{Morpho}.

(** X19: [summary] makes no call, whether it succeeds or raises, on a neuron
    that holds its tags whenever it holds its node table; on a neuron
    without skeleton it logs nothing either, and every count, the cable
    length and the soma read ['NA'], as do the name and the review status
    unless they are stored. *)
Theorem summary_never_fetches (self : t) (w : World) :
  (nodes self <> None -> tags self <> None) ->
  calls (snd (Summary.summary self w)) = calls w
  /\ (nodes self = None -> connectors self = None ->
      Summary.summary self w
      = (Ok ([("type", VStr "<class 'pymaid.core.CatmaidNeuron'>");
              ("neuron_name", default NA (__dict__ self "neuron_name"));
              ("skeleton_id", VStr (skeleton_id self));
              ("n_nodes", NA); ("n_connectors", NA); ("n_branch_nodes", NA);
              ("n_end_nodes", NA); ("n_open_ends", NA); ("cable_length", NA);
              ("review_status", default NA (__dict__ self "review_status"));
              ("soma", NA)], self), w)).
Proof.
  intros Hok. split.
  - destruct self as [sk ri rad tag col [tbl|] cn tgo nm ig sl mx rv an].
    + destruct tgo as [tg|]; [|exfalso; now apply Hok].
      clear Hok.
      unfold Summary.summary, getattr, __getattr__, _get_soma, self_nodes,
        self_tags, of_type, the, bind, ret, raise, logger.
      cbn. ListFacts.break_matches; reflexivity.
    + clear Hok.
      unfold Summary.summary, getattr, __getattr__, bind, ret.
      cbn. ListFacts.break_matches; reflexivity.
  - intros Hn Hc.
    destruct self as [sk ri rad tag col no cn tgo nm ig sl mx rv an].
    cbn in Hn, Hc. subst no cn. reflexivity.
Qed.

(** X20: A neuron built from a skeleton id or from a row (or a frame of one
    row) is built without a call or a log record, whether or not the
    construction succeeds.  When it succeeds the neuron has the session
    passed, else the ambient one, the default soma settings and colour,
    and no derived attribute, review status or annotations; and it either
    holds nothing of the skeleton, under an id that reads as an integer,
    or holds node table (classified), connectors, tags and name of the
    row together. *)
Theorem construction_is_local (x : init_arg) (ri : option Session) (w : World) :
  (forall m, x <> XNeuron m) -> (forall l, x <> XList l) ->
  snd (new x ri w) = w
  /\ forall n w',
       new x ri w = (Ok n, w') ->
       _remote_instance n = match ri with Some r => Some r | None => ambient w end
       /\ soma_detection_radius n = 500%Q
       /\ soma_detection_tag n = Some "soma"
       /\ color n = (255, 255, 0)
       /\ igraph n = None /\ slabs n = None
       /\ nodes_geodesic_distance_matrix n = None
       /\ review_status n = None /\ annotations n = None
       /\ (((exists z, int (skeleton_id n) = Ok z)
            /\ nodes n = None /\ connectors n = None /\ tags n = None
            /\ neuron_name n = None)
           \/ (exists row tbl,
                 (x = XSeries row \/ x = XFrame [row])
                 /\ skeleton_id n = sk_skeleton_id row
                 /\ nodes n = Some tbl /\ rows tbl = rows (sk_nodes row)
                 /\ type tbl <> None
                 /\ connectors n = Some (sk_connectors row)
                 /\ tags n = Some (sk_tags row)
                 /\ neuron_name n = Some (Some (sk_neuron_name row)))).
Proof.
  intros Hneuron Hlist.
  assert (Hrow : forall row (xx : init_arg),
             xx = XSeries row \/ xx = XFrame [row] ->
             forall n,
               n = init_from_series
                     (set_color (255, 255, 0)
                        (set_soma_detection_tag (Some "soma")
                           (set_soma_detection_radius 500%Q
                              (set_remote_instance
                                 match ri with Some r => Some r | None => ambient w end
                                 blank)))) row ->
               _remote_instance n = match ri with Some r => Some r | None => ambient w end
               /\ soma_detection_radius n = 500%Q
               /\ soma_detection_tag n = Some "soma"
               /\ color n = (255, 255, 0)
               /\ igraph n = None /\ slabs n = None
               /\ nodes_geodesic_distance_matrix n = None
               /\ review_status n = None /\ annotations n = None
               /\ (((exists z, int (skeleton_id n) = Ok z)
                    /\ nodes n = None /\ connectors n = None /\ tags n = None
                    /\ neuron_name n = None)
                   \/ (exists row tbl,
                         (xx = XSeries row \/ xx = XFrame [row])
                         /\ skeleton_id n = sk_skeleton_id row
                         /\ nodes n = Some tbl /\ rows tbl = rows (sk_nodes row)
                         /\ type tbl <> None
                         /\ connectors n = Some (sk_connectors row)
                         /\ tags n = Some (sk_tags row)
                         /\ neuron_name n = Some (Some (sk_neuron_name row))))).
  { intros row xx Hxx n ->.
    do 9 (split; [reflexivity|]). right.
    exists row,
      (if has_column "type" (sk_nodes row) then sk_nodes row
       else classify_nodes (sk_nodes row)).
    split; [exact Hxx|]. split; [reflexivity|]. split; [reflexivity|].
    split; [|split; [|repeat split]].
    - unfold has_column; cbn. now destruct (type (sk_nodes row)).
    - unfold has_column; cbn.
      destruct (type (sk_nodes row)) eqn:Ety; cbn; [congruence | discriminate]. }
  unfold new, __init__, bind, ret, raise, get_ambient.
  destruct x as [z|s|row|m|frame|l|].
  - destruct ri as [r|]; cbn; (split; [reflexivity|]);
      intros n w' [= <- <-]; (do 9 (split; [reflexivity|])); left;
      (split; [exists z; apply JsonFacts.int_str | repeat split]).
  - destruct ri as [r|]; cbn; destruct (int s) as [z|e] eqn:Es; cbn;
      (split; [reflexivity|]); intros n w' Hx; try discriminate Hx;
      injection Hx as <- <-; (do 9 (split; [reflexivity|])); left;
      (split; [exists z; exact Es | repeat split]).
  - destruct ri as [r|]; cbn; (split; [reflexivity|]);
      intros n w' [= <- <-];
      apply (Hrow row (XSeries row) (or_introl eq_refl)); reflexivity.
  - exfalso. now apply (Hneuron m).
  - destruct frame as [|row [|row2 rest]];
      destruct ri as [r|]; cbn; (split; [reflexivity|]);
      intros n w' Hx; try discriminate Hx;
      injection Hx as <- <-;
      apply (Hrow row (XFrame [row]) (or_intror eq_refl)); reflexivity.
  - exfalso. now apply (Hlist l).
  - cbn. split; [reflexivity|]. intros n w' Hx. discriminate Hx.
Qed.

End WithCollaborators.

Import StandIn.

Lemma summary_never_fetches_witness :
  calls (snd (Summary.summary fetched7 world0)) = [].
Proof.
  apply (summary_never_fetches fetched7 world0). discriminate.
Defined.

Lemma construction_is_local_witness :
  snd (new (XFrame [served "7"]) (Some session) world0) = world0.
Proof.
  apply (construction_is_local (XFrame [served "7"]) (Some session) world0);
    discriminate.
Defined.

End SummaryFacts.
